(** * cv-skill-gap-analyzer: the response normalizer and the search adapter

    A shallow embedding of
      - [cv_analyser/services/groq_service.py]   ([GroqService.analyze_cv]),
      - [cv_analyser/services/serper_service.py] ([SerperService.search_youtube_videos]),
      - [cv_analyser/models/schemas.py]          ([CVAnalysis], [YouTubeVideo]),
    and the properties of these functions.

    Conventions of the embedding.
      - A Python [str] is a [string]; the text is taken to be ASCII, so
        [str.strip], [str.lower] and [repr] act on the ASCII range only.
      - A decoded JSON document is a [json] value; a Python [dict] is an
        association list searched from the left (its keys are distinct).
        JSON numbers are the integers: a number written with a fraction or
        an exponent is decoded to a binary float, which is not modelled.
      - Code that can raise returns a [result]; [Raise] carries either the
        repository's own exception with its message, or a [fault] naming
        the interpreter or library exception.  The text that [str(e)] gives
        for a fault belongs to the interpreter and to pydantic, not to the
        repository: it is a parameter ([fault_text]) of every function that
        formats it.
      - [json.loads], the configured model name and the default number of
        search results are parameters as well. *)

From Stdlib Require Import String Ascii List ZArith Bool Lia DecimalString.
Import ListNotations.
Open Scope string_scope.
Open Scope Z_scope.

Set Warnings "-register-all".

Set Default Proof Using "Type".

(** ** The interpreter: strings *)

Module Py.

(** [c.isspace()] on the ASCII range: TAB, LF, VT, FF, CR, FS, GS, RS, US
    and the space. *)
Definition isspace (c : ascii) : bool :=
  let n := nat_of_ascii c in
  ((9 <=? n) && (n <=? 13) || (28 <=? n) && (n <=? 32))%nat.

(** [s.lstrip()] *)
Fixpoint lstrip (s : string) : string :=
  match s with
  | EmptyString => EmptyString
  | String c r => if isspace c then lstrip r else s
  end.

(** [s.rstrip()] *)
Fixpoint rstrip (s : string) : string :=
  match s with
  | EmptyString => EmptyString
  | String c r =>
      match rstrip r with
      | EmptyString => if isspace c then EmptyString else String c EmptyString
      | r' => String c r'
      end
  end.

(** [s.strip()] *)
Definition strip (s : string) : string := rstrip (lstrip s).

(** [s.startswith(p)] *)
Definition startswith (s p : string) : bool := String.prefix p s.

(** [s.endswith(p)]: [p] is a suffix of [s]. *)
Fixpoint endswith (s p : string) : bool :=
  (s =? p)%string ||
  match s with
  | EmptyString => false
  | String _ r => endswith r p
  end.

(** [s[n:]] for [n >= 0] *)
Fixpoint drop (n : nat) (s : string) : string :=
  match n, s with
  | O, _ => s
  | S _, EmptyString => EmptyString
  | S n', String _ r => drop n' r
  end.

(** [s[:n]] for [n >= 0] *)
Fixpoint take (n : nat) (s : string) : string :=
  match n, s with
  | O, _ => EmptyString
  | S _, EmptyString => EmptyString
  | S n', String c r => String c (take n' r)
  end.

(** [s[:-n]] for [n > 0]: all but the last [n] characters, nothing when
    the string is shorter. *)
Definition drop_end (n : nat) (s : string) : string :=
  take (String.length s - n) s.

(** [s.lower()] on the ASCII range. *)
Definition lower_char (c : ascii) : ascii :=
  let n := nat_of_ascii c in
  if ((65 <=? n) && (n <=? 90))%nat then ascii_of_nat (n + 32) else c.

Fixpoint lower (s : string) : string :=
  match s with
  | EmptyString => EmptyString
  | String c r => String (lower_char c) (lower r)
  end.

(** [sub in s] *)
Fixpoint contains (sub s : string) : bool :=
  String.prefix sub s ||
  match s with
  | EmptyString => false
  | String _ r => contains sub r
  end.

(** [bool(s)] for a [str] *)
Definition nonempty (s : string) : bool :=
  match s with EmptyString => false | _ => true end.

(** [sep.join(l)] *)
Fixpoint join (sep : string) (l : list string) : string :=
  match l with
  | [] => EmptyString
  | [x] => x
  | x :: r => x ++ sep ++ join sep r
  end.

(** [str(n)] for an [int] *)
Definition str_of_int (z : Z) : string := NilZero.string_of_int (Z.to_int z).

(** [repr(s)] for a [str], on the ASCII range: single quotes unless the
    text holds a single quote and no double quote; backslash, the chosen
    quote, LF, CR and TAB escaped with a backslash, the other control
    characters as [\xNN]. *)
Definition hex_digit (n : nat) : ascii :=
  if (n <? 10)%nat then ascii_of_nat (48 + n) else ascii_of_nat (87 + n).

Definition repr_char (q c : ascii) : string :=
  let n := nat_of_ascii c in
  if (c =? "\")%char then "\\"
  else if (c =? q)%char then String "\" (String q EmptyString)
  else if (n =? 10)%nat then "\n"
  else if (n =? 13)%nat then "\r"
  else if (n =? 9)%nat then "\t"
  else if ((n <? 32) || (n =? 127))%nat
       then String "\" (String "x" (String (hex_digit (n / 16))
                                      (String (hex_digit (n mod 16)) EmptyString)))
  else String c EmptyString.

Fixpoint repr_body (q : ascii) (s : string) : string :=
  match s with
  | EmptyString => EmptyString
  | String c r => repr_char q c ++ repr_body q r
  end.

Definition dquote : ascii := ascii_of_nat 34.

Definition repr_str (s : string) : string :=
  let q : ascii :=
    if contains "'" s && negb (contains (String dquote EmptyString) s)
    then dquote else "'"%char in
  String q (repr_body q s ++ String q EmptyString).

(** ** The interpreter: decoded JSON values *)

Inductive json : Type :=
| JNull
| JBool (b : bool)
| JInt (z : Z)
| JStr (s : string)
| JList (l : list json)
| JDict (d : list (string * json)).

Definition dict := list (string * json).

(** [bool(v)] *)
Definition truthy (v : json) : bool :=
  match v with
  | JNull => false
  | JBool b => b
  | JInt z => negb (z =? 0)
  | JStr s => nonempty s
  | JList l => match l with [] => false | _ => true end
  | JDict d => match d with [] => false | _ => true end
  end.

(** [x or y] *)
Definition por (x y : json) : json := if truthy x then x else y.

(** [d.get(k, dflt)] and [d.get(k)] *)
Fixpoint get_default (d : dict) (k : string) (dflt : json) : json :=
  match d with
  | [] => dflt
  | (k', v) :: r => if (k' =? k)%string then v else get_default r k dflt
  end.

Definition get (d : dict) (k : string) : json := get_default d k JNull.

(** [k in d] *)
Definition has_key (d : dict) (k : string) : bool :=
  existsb (fun kv => (fst kv =? k)%string) d.

(** [repr(v)], which is also [str(v)] except on a [str]. *)
Fixpoint repr (v : json) : string :=
  match v with
  | JNull => "None"
  | JBool true => "True"
  | JBool false => "False"
  | JInt z => str_of_int z
  | JStr s => repr_str s
  | JList l => "[" ++ join ", " (map repr l) ++ "]"
  | JDict d =>
      "{" ++ join ", " (map (fun kv => repr_str (fst kv) ++ ": " ++ repr (snd kv)) d)
          ++ "}"
  end.

(** [str(v)], and what an f-string field formats [v] to. *)
Definition str (v : json) : string :=
  match v with
  | JStr s => s
  | _ => repr v
  end.

(** ** Exceptions *)

(** The exceptions of the interpreter and of the libraries, by the
    operation that raises them. *)
Inductive fault : Type :=
| NoLen (v : json)            (* TypeError: len() of a value without a length *)
| NoAttr (v : json) (a : string)  (* AttributeError: v has no attribute a *)
| BadInt (v : json)           (* ValueError or TypeError of int(v) *)
| NotIterable (v : json)      (* TypeError: [k in v] on a non-container *)
| BadIndex (v : json)         (* TypeError or KeyError of v['videos'] or its slice *)
| Invalid (model : string) (fields : list string)
                              (* pydantic.ValidationError, the fields in error *)
| Undecodable (text : string) (* the JSONDecodeError of response.json() *)
| Foreign (msg : string).     (* an exception of a called service, with its str() *)

Inductive exn : Type :=
| GroqAPIError (msg : string)
| SerperAPIError (msg : string)
| ValueError (msg : string)
| Fault (f : fault).

Inductive result (A : Type) : Type :=
| Ok (a : A)
| Raise (e : exn).

Arguments Ok {A} a.
Arguments Raise {A} e.

Definition bind {A B : Type} (m : result A) (k : A -> result B) : result B :=
  match m with
  | Ok a => k a
  | Raise e => Raise e
  end.

Notation "x <- m ;; k" := (bind m (fun x => k))
  (at level 61, m at next level, right associativity).

(** The outcome of [json.loads(text)]: the decoded document, a
    [json.JSONDecodeError], or an exception of another class with its
    message (the [ValueError] of a run of digits over the interpreter's
    limit, the [RecursionError] of a document nested too deep). *)
Inductive decoded : Type :=
| Decoded (v : json)
| JSONDecodeError
| LoadsError (msg : string).

(** [len(v)] *)
Definition len (v : json) : result Z :=
  match v with
  | JStr s => Ok (Z.of_nat (String.length s))
  | JList l => Ok (Z.of_nat (List.length l))
  | JDict d => Ok (Z.of_nat (List.length d))
  | _ => Raise (Fault (NoLen v))
  end.

(** [v.strip()] *)
Definition strip_of (v : json) : result string :=
  match v with
  | JStr s => Ok (strip s)
  | _ => Raise (Fault (NoAttr v "strip"))
  end.

(** [int(s)] for a [str]: surrounding whitespace, one optional sign, then
    decimal digits, single underscores allowed between two digits; no more
    digits than the interpreter's limit.

    The whitespace [int] skips around an ASCII text is that of the C
    locale, TAB, LF, VT, FF, CR and the space: the separators FS, GS, RS
    and US, which [str.strip] removes, are not skipped, and a text that
    carries one is refused. *)
Definition int_isspace (c : ascii) : bool :=
  let n := nat_of_ascii c in
  ((9 <=? n) && (n <=? 13) || (n =? 32))%nat.

Fixpoint int_lstrip (s : string) : string :=
  match s with
  | EmptyString => EmptyString
  | String c r => if int_isspace c then int_lstrip r else s
  end.

Fixpoint int_rstrip (s : string) : string :=
  match s with
  | EmptyString => EmptyString
  | String c r =>
      match int_rstrip r with
      | EmptyString => if int_isspace c then EmptyString else String c EmptyString
      | r' => String c r'
      end
  end.

Definition digit_of (c : ascii) : option Z :=
  let n := nat_of_ascii c in
  if ((48 <=? n) && (n <=? 57))%nat then Some (Z.of_nat (n - 48)) else None.

Fixpoint digits (s : string) (acc : Z) (after_digit : bool) : option Z :=
  match s with
  | EmptyString => if after_digit then Some acc else None
  | String c r =>
      match digit_of c with
      | Some k => digits r (10 * acc + k) true
      | None =>
          if (c =? "_")%char && after_digit then digits r acc false else None
      end
  end.

(** [sys.get_int_max_str_digits()], the interpreter's default: a longer
    run of digits is refused. *)
Definition int_max_str_digits : nat := 4300.

Fixpoint digit_count (s : string) : nat :=
  match s with
  | EmptyString => O
  | String c r =>
      match digit_of c with
      | Some _ => S (digit_count r)
      | None => digit_count r
      end
  end.

Definition int_of_str (s : string) : option Z :=
  let t := int_rstrip (int_lstrip s) in
  if (int_max_str_digits <? digit_count t)%nat then None
  else
    match t with
    | String "+" r => digits r 0 false
    | String "-" r => option_map Z.opp (digits r 0 false)
    | _ => digits t 0 false
    end.

(** [int(v)] *)
Definition int_of (v : json) : result Z :=
  match v with
  | JInt z => Ok z
  | JBool b => Ok (if b then 1 else 0)
  | JStr s =>
      match int_of_str s with
      | Some z => Ok z
      | None => Raise (Fault (BadInt v))
      end
  | _ => Raise (Fault (BadInt v))
  end.

(** [lst[:n]] *)
Definition slice_to {A : Type} (n : Z) (l : list A) : list A :=
  if 0 <=? n then firstn (Z.to_nat n) l
  else firstn (List.length l - Z.to_nat (- n)) l.

(** [str(e)] for an exception, given the text of the faults. *)
Definition exn_str (fault_text : fault -> string) (e : exn) : string :=
  match e with
  | GroqAPIError m | SerperAPIError m | ValueError m => m
  | Fault (Foreign m) => m
  | Fault f => fault_text f
  end.

End Py.

Import Py.

(** ** [cv_analyser/models/schemas.py] *)

Module Schemas.

Record CVAnalysis : Type := {
  overall_score : Z;
  skills_match : Z;
  experience_match : Z;
  education_match : Z;
  strengths : list string;
  missing_skills : list string;
  gaps_analysis : string;
  youtube_search_query : string
}.

(** The keyword arguments that [analyze_cv] unpacks from [converted_data],
    with the types it builds them with. *)
Record CVAnalysis_args : Type := {
  arg_overall_score : Z;
  arg_skills_match : Z;
  arg_experience_match : Z;
  arg_education_match : Z;
  arg_strengths : list json;
  arg_missing_skills : list json;
  arg_gaps_analysis : string;
  arg_youtube_search_query : json
}.

(** [Field(..., ge=0, le=100)] on an [int] *)
Definition in_bounds (v : Z) : bool := (0 <=? v) && (v <=? 100).

Definition validate_score (v : Z) : option Z :=
  if negb ((0 <=? v) && (v <=? 100)) then None else Some v.

Definition score_field (v : Z) : option Z :=
  if in_bounds v then validate_score v else None.

(** [str]: pydantic 2 takes a [str] only. *)
Definition str_field (v : json) : option string :=
  match v with
  | JStr s => Some s
  | _ => None
  end.

(** [List[str]] *)
Fixpoint str_list_field (l : list json) : option (list string) :=
  match l with
  | [] => Some []
  | v :: r =>
      match str_field v, str_list_field r with
      | Some s, Some r' => Some (s :: r')
      | _, _ => None
      end
  end.

(** [Optional[str]] *)
Definition opt_str_field (v : json) : option (option string) :=
  match v with
  | JNull => Some None
  | JStr s => Some (Some s)
  | _ => None
  end.

Definition validate_lists_minimum (v : list string) : list string :=
  match v with
  | [] => ["Not specified"]
  | _ => v
  end.

Definition gaps_fallback : string :=
  "Analysis not available. Please review the strengths and missing skills above.".

Definition query_fallback : string := "skill improvement tutorial".

Definition validate_gaps_analysis (v : string) : string :=
  if negb (nonempty v) || (String.length v <? 10)%nat then gaps_fallback else v.

Definition validate_youtube_query (v : string) : string :=
  if negb (nonempty v) || (String.length v <? 3)%nat then query_fallback else v.

Definition errors_of {A : Type} (name : string) (r : option A) : list string :=
  match r with
  | Some _ => []
  | None => [name]
  end.

(** [CVAnalysis(...)]: every field is validated, then its validator runs;
    one [ValidationError] reports all the fields that failed. *)
Definition CVAnalysis_init (a : CVAnalysis_args) : result CVAnalysis :=
  let o := score_field (arg_overall_score a) in
  let s := score_field (arg_skills_match a) in
  let e := score_field (arg_experience_match a) in
  let d := score_field (arg_education_match a) in
  let st := option_map validate_lists_minimum (str_list_field (arg_strengths a)) in
  let ms := option_map validate_lists_minimum (str_list_field (arg_missing_skills a)) in
  let q := option_map validate_youtube_query (str_field (arg_youtube_search_query a)) in
  match o, s, e, d, st, ms, q with
  | Some o', Some s', Some e', Some d', Some st', Some ms', Some q' =>
      Ok {| overall_score := o'; skills_match := s'; experience_match := e';
            education_match := d'; strengths := st'; missing_skills := ms';
            gaps_analysis := validate_gaps_analysis (arg_gaps_analysis a);
            youtube_search_query := q' |}
  | _, _, _, _, _, _, _ =>
      Raise (Fault (Invalid "CVAnalysis"
        (errors_of "overall_score" o ++ errors_of "skills_match" s ++
         errors_of "experience_match" e ++ errors_of "education_match" d ++
         errors_of "strengths" st ++ errors_of "missing_skills" ms ++
         errors_of "youtube_search_query" q)))
  end.

Record YouTubeVideo : Type := {
  title : string;
  link : string;
  channel : string;
  duration : string;
  thumbnail : option string
}.

Definition validate_youtube_link (v : string) : option string :=
  if nonempty v && negb (existsb (fun domain => contains domain v)
                                 ["youtube.com"; "youtu.be"])
  then None
  else Some v.

Definition link_field (v : json) : option string :=
  match str_field v with
  | Some s => validate_youtube_link s
  | None => None
  end.

(** [YouTubeVideo(title=..., link=..., channel=..., duration=..., thumbnail=...)] *)
Definition YouTubeVideo_init (t l c d th : json) : result YouTubeVideo :=
  let t' := str_field t in
  let l' := link_field l in
  let c' := str_field c in
  let d' := str_field d in
  let th' := opt_str_field th in
  match t', l', c', d', th' with
  | Some vt, Some vl, Some vc, Some vd, Some vth =>
      Ok {| title := vt; link := vl; channel := vc; duration := vd;
            thumbnail := vth |}
  | _, _, _, _, _ =>
      Raise (Fault (Invalid "YouTubeVideo"
        (errors_of "title" t' ++ errors_of "link" l' ++ errors_of "channel" c' ++
         errors_of "duration" d' ++ errors_of "thumbnail" th')))
  end.

End Schemas.

Import Schemas.

(** ** [cv_analyser/services/groq_service.py] *)

Module Groq.

Local Notation "x 'or' y" := (por x y) (at level 72, right associativity).

(** *** Key-alias resolution *)

Definition overall_of (analysis_data : dict) : json :=
  get analysis_data "overall_score"
  or get analysis_data "Overall Match Score"
  or get analysis_data "Match Score"
  or get analysis_data "match_score"
  or JInt 0.

Definition skills_of (analysis_data : dict) : json :=
  get analysis_data "skills_match"
  or get analysis_data "Skills Match"
  or JInt 0.

Definition experience_of (analysis_data : dict) : json :=
  get analysis_data "experience_match"
  or get analysis_data "Experience Match"
  or JInt 0.

Definition education_of (analysis_data : dict) : json :=
  get analysis_data "education_match"
  or get analysis_data "Education Match"
  or JInt 0.

Definition strengths_of (analysis_data : dict) : json :=
  get analysis_data "matching_skills"
  or get analysis_data "strong_skills"
  or get analysis_data "matching_strong_skills"
  or get analysis_data "Matching/Strong Skills"
  or get analysis_data "Matching / strong skills"
  or get analysis_data "Matching Skills"
  or JList [].

Definition missing_of (analysis_data : dict) : json :=
  get analysis_data "missing_skills"
  or get analysis_data "missing_weak_skills"
  or get analysis_data "Missing/Weak Skills"
  or get analysis_data "Missing / weak skills"
  or get analysis_data "Missing Skills"
  or JList [].

Definition summary_of (analysis_data : dict) : json :=
  get analysis_data "skill_gap_analysis_summary"
  or get analysis_data "Summary"
  or get analysis_data "Skill Gap Summary"
  or JStr "".

Definition query_of (analysis_data : dict) : json :=
  get analysis_data "youtube_search_query"
  or get analysis_data "Search Query"
  or get analysis_data "YouTube search query"
  or get analysis_data "YouTube Search Query"
  or JStr "".

(** *** Emptiness of a skill list *)

Definition sentinels : list string := ["not specified"; "n/a"; "none"].

Definition mem (x : string) (l : list string) : bool :=
  existsb (String.eqb x) l.

Definition _is_truly_empty_list (lst : list json) : bool :=
  match lst with
  | [] => true
  | _ =>
      let cleaned :=
        map (fun x => lower (strip (str x)))
            (filter (fun x => nonempty (strip (str x))) lst) in
      match cleaned with
      | [] => true
      | _ => if forallb (fun x => mem x sentinels) cleaned then true else false
      end
  end.

(** *** Shape coercion of the skill lists

    The source has this loop twice, once for [strengths] and once for
    [missing]; the two copies differ in the variable names only. *)

Definition coerce_item (item : json) : json :=
  match item with
  | JStr _ => item
  | JDict d =>
      let name := get d "name" or get d "skill" or JStr (str item) in
      let importance := get d "importance" in
      match importance with
      | JNull => name
      | _ => JStr (str name ++ " (importance " ++ str importance ++ "/10)")
      end
  | _ => JStr (str item)
  end.

Definition normalize_skills (v : json) : list json :=
  match v with
  | JList l => map coerce_item l
  | JStr _ => [v]
  | _ => []
  end.

(** *** The conversion block (the inner [try]) *)

Definition empty_analysis_msg : string :=
  "The AI returned an empty analysis. Please try again or slightly shorten your CV / job description.".

(** [int(overall) == 0 and int(skills) == 0 and int(experience) == 0 and
    int(education) == 0] *)
Definition all_zero (overall skills experience education : json) : result bool :=
  o <- int_of overall ;;
  if negb (o =? 0) then Ok false else
  s <- int_of skills ;;
  if negb (s =? 0) then Ok false else
  e <- int_of experience ;;
  if negb (e =? 0) then Ok false else
  d <- int_of education ;;
  Ok (d =? 0).

(** [not v or not v.strip()] *)
Definition is_blank (v : json) : result bool :=
  if negb (truthy v) then Ok true
  else t <- strip_of v ;; Ok (negb (nonempty t)).

(** [summary.strip() if summary and summary.strip() else <fallback>] *)
Definition gaps_of (summary : json) : result string :=
  if truthy summary then
    t <- strip_of summary ;;
    if nonempty t then strip_of summary else Ok gaps_fallback
  else Ok gaps_fallback.

Definition convert (analysis_data : dict) : result CVAnalysis :=
  let overall := overall_of analysis_data in
  let skills := skills_of analysis_data in
  let experience := experience_of analysis_data in
  let education := education_of analysis_data in
  let strengths := strengths_of analysis_data in
  let missing := missing_of analysis_data in
  let summary := summary_of analysis_data in
  let query := query_of analysis_data in
  (* the log line formats len(strengths) and len(missing) *)
  _ <- len strengths ;;
  _ <- len missing ;;
  let strengths_norm := normalize_skills strengths in
  let missing_norm := normalize_skills missing in
  all_zero_scores <- all_zero overall skills experience education ;;
  let no_real_strengths := _is_truly_empty_list strengths_norm in
  let no_real_missing := _is_truly_empty_list missing_norm in
  empty_summary <- is_blank summary ;;
  empty_query <- is_blank query ;;
  if all_zero_scores && no_real_strengths && no_real_missing
     && empty_summary && empty_query
  then Raise (GroqAPIError empty_analysis_msg)
  else
    o <- int_of overall ;;
    s <- int_of skills ;;
    e <- int_of experience ;;
    d <- int_of education ;;
    gaps <- gaps_of summary ;;
    CVAnalysis_init
      {| arg_overall_score := o;
         arg_skills_match := s;
         arg_experience_match := e;
         arg_education_match := d;
         arg_strengths :=
           match strengths_norm with [] => [JStr "Not specified"] | _ => strengths_norm end;
         arg_missing_skills :=
           match missing_norm with [] => [JStr "Not specified"] | _ => missing_norm end;
         arg_gaps_analysis := gaps;
         arg_youtube_search_query :=
           if truthy query then query else JStr "skill improvement tutorial" |}.

Section Service.

(** [json.loads] *)
Variable json_loads : string -> decoded.
(** The text of [str(e)] for the interpreter's and pydantic's exceptions. *)
Variable fault_text : fault -> string.
(** [self._get_model_config()['model']] *)
Variable model : string.

Definition parse_failed_prefix : string :=
  "Failed to parse API response into valid format: ".

(** The inner [try] with its [except Exception]. *)
Definition normalize (analysis_data : dict) : result CVAnalysis :=
  match convert analysis_data with
  | Ok analysis => Ok analysis
  | Raise e => Raise (GroqAPIError (parse_failed_prefix ++ exn_str fault_text e))
  end.

(** *** Text-to-JSON recovery *)

Definition strip_fences (result_text : string) : string :=
  let clean_text := strip result_text in
  let clean_text :=
    if startswith clean_text "```json" then drop 7 clean_text else clean_text in
  let clean_text :=
    if startswith clean_text "```" then drop 3 clean_text else clean_text in
  let clean_text :=
    if endswith clean_text "```" then drop_end 3 clean_text else clean_text in
  strip clean_text.

(** [re.search(r"\{.*\}", s, re.DOTALL)]: from the first opening brace to
    the last closing brace after it. *)
Fixpoint from_open (s : string) : option string :=
  match s with
  | EmptyString => None
  | String c r => if (c =? "{")%char then Some s else from_open r
  end.

Fixpoint to_last_close (s : string) : option string :=
  match s with
  | EmptyString => None
  | String c r =>
      match to_last_close r with
      | Some m => Some (String c m)
      | None => if (c =? "}")%char then Some (String c EmptyString) else None
      end
  end.

Definition search_braces (s : string) : option string :=
  match from_open s with
  | Some r => to_last_close r
  | None => None
  end.

Definition invalid_json_msg : string :=
  "Model returned invalid JSON even after extraction. Try again, or slightly shorten your CV / job description.".

Definition no_json_msg : string :=
  "Model did not return JSON format. Current model: " ++ model.

(** The [try] around the first [json.loads] catches
    [json.JSONDecodeError] only: an exception of another class leaves the
    block and reaches the outer handler.  The [try] around the second one
    catches every [Exception]. *)
Definition recover_json (result_text : string) : result json :=
  match json_loads (strip_fences result_text) with
  | Decoded analysis_data => Ok analysis_data
  | LoadsError msg => Raise (Fault (Foreign msg))
  | JSONDecodeError =>
      match search_braces result_text with
      | Some json_match =>
          match json_loads json_match with
          | Decoded analysis_data => Ok analysis_data
          | _ => Raise (GroqAPIError invalid_json_msg)
          end
      | None => Raise (GroqAPIError no_json_msg)
      end
  end.

(** *** The outer handler *)

Definition auth_msg : string :=
  "Invalid API key. Please check your GROQ_API_KEY in .env file.".
Definition rate_limit_msg : string :=
  "Rate limit exceeded. Please wait a moment and try again.".
Definition timeout_msg : string := "Request timed out. Please try again.".
Definition model_msg : string :=
  "Model not found. Check GROQ_MODEL in .env file. Current: " ++ model.
Definition unknown_msg (original : string) : string :=
  "Analysis failed: " ++ original.

Definition classify (original : string) : string :=
  let error_msg := lower original in
  if contains "authentication" error_msg || contains "api key" error_msg
     || contains "401" error_msg
  then auth_msg
  else if contains "rate limit" error_msg || contains "429" error_msg
  then rate_limit_msg
  else if contains "timeout" error_msg
  then timeout_msg
  else if contains "model" error_msg && contains "not found" error_msg
  then model_msg
  else unknown_msg original.

(** [except GroqAPIError: raise] / [except Exception as e: ...] *)
Definition handle {A : Type} (r : result A) : result A :=
  match r with
  | Ok a => Ok a
  | Raise (GroqAPIError m) => Raise (GroqAPIError m)
  | Raise e => Raise (GroqAPIError (classify (exn_str fault_text e)))
  end.

(** [analysis_data.keys()] in the log line after the recovery *)
Definition keys_of (v : json) : result dict :=
  match v with
  | JDict d => Ok d
  | _ => Raise (Fault (NoAttr v "keys"))
  end.

(** What follows the completion call, given the text of the reply. *)
Definition analyze_reply (content : option string) : result CVAnalysis :=
  result_text <-
    match content with
    | Some t => Ok t
    | None => Raise (Fault (NoLen JNull))   (* len(result_text) in the log line *)
    end ;;
  analysis_data <- recover_json result_text ;;
  d <- keys_of analysis_data ;;
  normalize d.

(** [analyze_cv]; [completion] is the outcome of
    [self.client.chat.completions.create(...)] followed by
    [.choices[0].message.content]. *)
Definition analyze_cv (completion : result (option string)) : result CVAnalysis :=
  handle (content <- completion ;; analyze_reply content).

End Service.

End Groq.

(** ** [cv_analyser/services/serper_service.py] *)

Module Serper.

(** The outcome of [requests.post(...)]. *)
Inductive http_reply : Type :=
| ReqTimeout                      (* requests.exceptions.Timeout *)
| RequestException (msg : string) (* another requests exception *)
| Crash (msg : string)            (* any other exception *)
| Response (status_code : Z) (body : option json) (text : string).
                                  (* [body] is [response.json()], [None] when
                                     the text does not decode *)

(** One iteration of the loop body, inside its [try]. *)
Definition video_of (video_data : json) : result YouTubeVideo :=
  match video_data with
  | JDict d =>
      YouTubeVideo_init
        (get_default d "title" (JStr "N/A"))
        (get_default d "link" (JStr "#"))
        (get_default d "channel" (JStr "N/A"))
        (get_default d "duration" (JStr "N/A"))
        (get d "imageUrl")
  | _ => Raise (Fault (NoAttr video_data "get"))
  end.

(** The loop: an entry whose construction raises is skipped. *)
Fixpoint collect (entries : list json) : list YouTubeVideo :=
  match entries with
  | [] => []
  | video_data :: rest =>
      match video_of video_data with
      | Ok video => video :: collect rest
      | Raise _ => collect rest
      end
  end.

Definition json_eqb_str (v : json) (s : string) : bool :=
  match v with
  | JStr t => (t =? s)%string
  | _ => false
  end.

(** ['videos' in results] *)
Definition has_videos (results : json) : result bool :=
  match results with
  | JDict d => Ok (has_key d "videos")
  | JList l => Ok (existsb (fun v => json_eqb_str v "videos") l)
  | JStr s => Ok (contains "videos" s)
  | _ => Raise (Fault (NotIterable results))
  end.

Fixpoint chars (s : string) : list json :=
  match s with
  | EmptyString => []
  | String c r => JStr (String c EmptyString) :: chars r
  end.

(** [results['videos'][:num_results]], as the sequence the loop runs over *)
Definition videos_slice (results : json) (num_results : Z) : result (list json) :=
  match results with
  | JDict d =>
      match get d "videos" with
      | JList l => Ok (slice_to num_results l)
      | JStr s => Ok (slice_to num_results (chars s))
      | v => Raise (Fault (BadIndex v))
      end
  | _ => Raise (Fault (BadIndex results))
  end.

Section Service.

Variable fault_text : fault -> string.
(** [self.settings.serper_num_results] *)
Variable serper_num_results : Z.

Definition status_error (status_code : Z) (body : option json) (text : string)
  : string :=
  "Serper API error: " ++ str_of_int status_code ++ " - " ++
  match body with
  | Some (JDict error_data) => str (get_default error_data "message" (JStr "Unknown error"))
  | _ => take 200 text
  end.

(** The body of the outer [try]. *)
Definition request (num_results : Z) (reply : http_reply)
  : result (list YouTubeVideo) :=
  match reply with
  | ReqTimeout => Raise (SerperAPIError "Request timed out. Please try again.")
  | RequestException msg => Raise (SerperAPIError ("Network error: " ++ msg))
  | Crash msg => Raise (SerperAPIError ("Search failed: " ++ msg))
  | Response status_code body text =>
      if negb (status_code =? 200)
      then Raise (SerperAPIError (status_error status_code body text))
      else
        match body with
        | None =>
            (* response.json() raises requests' JSONDecodeError, a
               RequestException *)
            Raise (SerperAPIError ("Network error: " ++ fault_text (Undecodable text)))
        | Some results =>
            let found :=
              present <- has_videos results ;;
              if negb present then Ok []
              else entries <- videos_slice results num_results ;;
                   Ok (collect entries) in
            match found with
            | Ok videos => Ok videos
            | Raise e =>
                Raise (SerperAPIError ("Search failed: " ++ exn_str fault_text e))
            end
        end
  end.

Definition search_youtube_videos (query : string) (num_results : option Z)
    (reply : http_reply) : result (list YouTubeVideo) :=
  if negb (nonempty query) || negb (nonempty (strip query))
  then Raise (ValueError "Search query cannot be empty")
  else
    let num_results :=
      match num_results with
      | Some n => if n =? 0 then serper_num_results else n
      | None => serper_num_results
      end in
    request num_results reply.

End Service.

End Serper.

(** ** The logical fields and their alias tables

    The eight [or] chains of [analyze_cv], read as data. *)

Inductive field : Type :=
| Overall | Skills | Experience | Education
| Strengths | Missing | Summary | Query.

Definition aliases (f : field) : list string :=
  match f with
  | Overall => ["overall_score"; "Overall Match Score"; "Match Score"; "match_score"]
  | Skills => ["skills_match"; "Skills Match"]
  | Experience => ["experience_match"; "Experience Match"]
  | Education => ["education_match"; "Education Match"]
  | Strengths =>
      ["matching_skills"; "strong_skills"; "matching_strong_skills";
       "Matching/Strong Skills"; "Matching / strong skills"; "Matching Skills"]
  | Missing =>
      ["missing_skills"; "missing_weak_skills"; "Missing/Weak Skills";
       "Missing / weak skills"; "Missing Skills"]
  | Summary => ["skill_gap_analysis_summary"; "Summary"; "Skill Gap Summary"]
  | Query =>
      ["youtube_search_query"; "Search Query"; "YouTube search query";
       "YouTube Search Query"]
  end.

Definition hard_default (f : field) : json :=
  match f with
  | Overall | Skills | Experience | Education => JInt 0
  | Strengths | Missing => JList []
  | Summary | Query => JStr ""
  end.

(** What [analyze_cv] resolves the field to. *)
Definition resolved (f : field) : dict -> json :=
  match f with
  | Overall => Groq.overall_of
  | Skills => Groq.skills_of
  | Experience => Groq.experience_of
  | Education => Groq.education_of
  | Strengths => Groq.strengths_of
  | Missing => Groq.missing_of
  | Summary => Groq.summary_of
  | Query => Groq.query_of
  end.

(** The value under the first key of [keys] whose value is truthy. *)
Fixpoint first_truthy (d : dict) (keys : list string) (dflt : json) : json :=
  match keys with
  | [] => dflt
  | k :: rest => if truthy (get d k) then get d k else first_truthy d rest dflt
  end.

(** ** The specification's wording, for comparison *)

(** Key-alias resolution as the specification words it: a value is passed
    over when the key is missing or the value is null or 0. *)
Definition passed_over_spec (v : json) : bool :=
  match v with
  | JNull => true
  | JInt 0 => true
  | _ => false
  end.

Fixpoint resolve_spec (d : dict) (keys : list string) (dflt : json) : json :=
  match keys with
  | [] => dflt
  | k :: rest =>
      if passed_over_spec (get d k) then resolve_spec d rest dflt else get d k
  end.

(** A skill list as the specification words its emptiness: empty, or every
    entry, trimmed and lower-cased, is one of the sentinels. *)
Definition sentinel_entry (x : json) : bool :=
  Groq.mem (lower (strip (str x))) Groq.sentinels.

Definition sentinel_only_spec (l : list json) : bool := forallb sentinel_entry l.

(** The same, leaving out the entries that are blank once trimmed. *)
Definition blank_entry (x : json) : bool := negb (nonempty (strip (str x))).

Definition no_real_entries (l : list json) : bool :=
  forallb (fun x => blank_entry x || sentinel_entry x) l.

(** A search entry as the specification words its being malformed: a
    required field is missing, or the link is outside the allow-list. *)
Definition allowed_host (s : string) : bool :=
  contains "youtube.com" s || contains "youtu.be" s.

Definition malformed_spec (video_data : json) : bool :=
  match video_data with
  | JDict d =>
      negb (has_key d "title") || negb (has_key d "link")
      || negb (has_key d "channel")
      || match get d "link" with
         | JStr s => negb (allowed_host s)
         | _ => true
         end
  | _ => true
  end.

(** ** Predicates of the statements *)

(** The entries the search loop keeps: a [dict] whose title, channel and
    duration are strings where present, whose image URL is a string, null
    or absent, and whose link is present and passes the link validator. *)
Definition is_str (v : json) : bool :=
  match v with
  | JStr _ => true
  | _ => false
  end.

Definition accepted (video_data : json) : bool :=
  match video_data with
  | JDict d =>
      (negb (has_key d "title") || is_str (get d "title"))
      && (negb (has_key d "channel") || is_str (get d "channel"))
      && (negb (has_key d "duration") || is_str (get d "duration"))
      && match get d "imageUrl" with
         | JNull | JStr _ => true
         | _ => false
         end
      && has_key d "link"
      && match link_field (get d "link") with
         | Some _ => true
         | None => false
         end
  | _ => false
  end.

(** [num_results or self.settings.serper_num_results] *)
Definition effective_num (num_results : option Z) (dflt : Z) : Z :=
  match num_results with
  | Some n => if n =? 0 then dflt else n
  | None => dflt
  end.

(** The value has a length: [len] does not raise on it. *)
Definition sized (v : json) : bool :=
  match v with
  | JStr _ | JList _ | JDict _ => true
  | _ => false
  end.

(** The value is a [str] that is empty once trimmed. *)
Definition blank_text (v : json) : bool :=
  match v with
  | JStr s => negb (nonempty (strip s))
  | _ => false
  end.

(** The exception is the interpreter's or a library's. *)
Definition is_fault (e : exn) : Prop := exists f, e = Fault f.

(** [int(v)] succeeds with [z]. *)
Definition casts_to (v : json) (z : Z) : Prop := int_of v = Ok z.

(** The payload is an empty analysis: every score casts to 0, both skill
    lists have a length and no entry other than blanks and sentinels once
    coerced, and the summary and the query are blank. *)
Definition empty_analysis (d : dict) : Prop :=
  (casts_to (Groq.overall_of d) 0 /\ casts_to (Groq.skills_of d) 0
   /\ casts_to (Groq.experience_of d) 0 /\ casts_to (Groq.education_of d) 0)
  /\ sized (Groq.strengths_of d) = true
  /\ sized (Groq.missing_of d) = true
  /\ no_real_entries (Groq.normalize_skills (Groq.strengths_of d)) = true
  /\ no_real_entries (Groq.normalize_skills (Groq.missing_of d)) = true
  /\ blank_text (Groq.summary_of d) = true
  /\ blank_text (Groq.query_of d) = true.

(** The same with the lists' emptiness as the specification words it. *)
Definition empty_analysis_spec (d : dict) : Prop :=
  (casts_to (Groq.overall_of d) 0 /\ casts_to (Groq.skills_of d) 0
   /\ casts_to (Groq.experience_of d) 0 /\ casts_to (Groq.education_of d) 0)
  /\ sized (Groq.strengths_of d) = true
  /\ sized (Groq.missing_of d) = true
  /\ sentinel_only_spec (Groq.normalize_skills (Groq.strengths_of d)) = true
  /\ sentinel_only_spec (Groq.normalize_skills (Groq.missing_of d)) = true
  /\ blank_text (Groq.summary_of d) = true
  /\ blank_text (Groq.query_of d) = true.

(** The arguments [analyze_cv] hands to [CVAnalysis] once the casts and the
    summary are computed. *)
Definition converted_data (d : dict) (o s e dd : Z) (gaps : string)
  : CVAnalysis_args :=
  {| arg_overall_score := o;
     arg_skills_match := s;
     arg_experience_match := e;
     arg_education_match := dd;
     arg_strengths :=
       match Groq.normalize_skills (Groq.strengths_of d) with
       | [] => [JStr "Not specified"]
       | l => l
       end;
     arg_missing_skills :=
       match Groq.normalize_skills (Groq.missing_of d) with
       | [] => [JStr "Not specified"]
       | l => l
       end;
     arg_gaps_analysis := gaps;
     arg_youtube_search_query :=
       if truthy (Groq.query_of d) then Groq.query_of d
       else JStr "skill improvement tutorial" |}.

Fixpoint all_space (s : string) : bool :=
  match s with
  | EmptyString => true
  | String c r => isspace c && all_space r
  end.

(** The character [c] does not occur in [s]. *)
Fixpoint lacks (c : ascii) (s : string) : bool :=
  match s with
  | EmptyString => true
  | String c' r => negb (c' =? c)%char && lacks c r
  end.

(** The text [t] between an opening fence and the closing fence, with
    blank text [ws1], [ws2] around it. *)
Definition fenced (opening ws1 t ws2 : string) : string :=
  opening ++ ws1 ++ t ++ ws2 ++ "```".

(** ** Instances of the parameters, for the examples *)

Definition type_name (v : json) : string :=
  match v with
  | JNull => "NoneType"
  | JBool _ => "bool"
  | JInt _ => "int"
  | JStr _ => "str"
  | JList _ => "list"
  | JDict _ => "dict"
  end.

(** The first line of what CPython 3.12 and pydantic 2 print. *)
Definition cpython_text (f : fault) : string :=
  match f with
  | NoLen v => "object of type '" ++ type_name v ++ "' has no len()"
  | NoAttr v a => "'" ++ type_name v ++ "' object has no attribute '" ++ a ++ "'"
  | BadInt (JStr s) => "invalid literal for int() with base 10: " ++ repr_str s
  | BadInt v =>
      "int() argument must be a string, a bytes-like object or a real number, not '"
      ++ type_name v ++ "'"
  | NotIterable v => "argument of type '" ++ type_name v ++ "' is not iterable"
  | BadIndex v => "'" ++ type_name v ++ "' object is not subscriptable"
  | Invalid m fields =>
      str_of_int (Z.of_nat (List.length fields)) ++ " validation error for " ++ m
  | Undecodable _ => "Expecting value: line 1 column 1 (char 0)"
  | Foreign m => m
  end.

(** A decoder that knows finitely many texts, and finds every other text
    ill-formed. *)
Fixpoint loads_of (table : list (string * json)) (s : string) : decoded :=
  match table with
  | [] => JSONDecodeError
  | (t, v) :: rest => if (t =? s)%string then Decoded v else loads_of rest s
  end.

(** A decoder that fails on one text with an exception that is not a
    [json.JSONDecodeError], and finds every other text ill-formed. *)
Definition loads_failing (bad msg : string) (s : string) : decoded :=
  if (bad =? s)%string then LoadsError msg else JSONDecodeError.

Definition newline : string := String (ascii_of_nat 10) EmptyString.

(** ['1' * n] *)
Fixpoint ones (n : nat) : string :=
  match n with
  | O => EmptyString
  | S n' => String "1" (ones n')
  end.

Definition quoted (s : string) : string :=
  String dquote (s ++ String dquote EmptyString).

(** ** More of the interpreter: splitting, replacing, indexing *)

Module Text.

(** [s.split(sep)] for a non-empty [sep]: the pieces between the
    occurrences of [sep], found from the left without overlap.  [skip]
    counts the characters of a found [sep] still to pass over. *)
Fixpoint split_go (sep : string) (skip : nat) (cur : string) (s : string)
  : list string :=
  match s with
  | EmptyString => [cur]
  | String c r =>
      match skip with
      | S k => split_go sep k cur r
      | O =>
          if String.prefix sep s
          then cur :: split_go sep (String.length sep - 1) EmptyString r
          else split_go sep 0 (cur ++ String c EmptyString) r
      end
  end.

Definition split (sep s : string) : list string := split_go sep 0 EmptyString s.

(** [s.split()]: the maximal runs of characters that are not blanks. *)
Fixpoint words_go (cur : string) (s : string) : list string :=
  match s with
  | EmptyString => if nonempty cur then [cur] else []
  | String c r =>
      if isspace c
      then (if nonempty cur then cur :: words_go EmptyString r
            else words_go EmptyString r)
      else words_go (cur ++ String c EmptyString) r
  end.

Definition words (s : string) : list string := words_go EmptyString s.

(** [s.replace(old, new)] for a non-empty [old]. *)
Fixpoint replace_go (old new : string) (skip : nat) (s : string) : string :=
  match s with
  | EmptyString => EmptyString
  | String c r =>
      match skip with
      | S k => replace_go old new k r
      | O =>
          if String.prefix old s
          then new ++ replace_go old new (String.length old - 1) r
          else String c (replace_go old new 0 r)
      end
  end.

Definition replace (old new s : string) : string := replace_go old new 0 s.

(** [l[n]] on a list: [None] stands for [IndexError]. *)
Definition item {A : Type} (l : list A) (n : nat) : option A := nth_error l n.

Definition nul : string := String (ascii_of_nat 0) EmptyString.

End Text.

Import Text.

(** ** [SerperService.get_video_details] *)

Module Details.

Record VideoDetails : Type := {
  video_id : string;
  url : string;
  embed_url : string
}.

(** The first [if]/[elif]: [None] outside stands for [IndexError],
    [Some None] for [video_id = None]. *)
Definition extract_id (video_url : string) : option (option string) :=
  if contains "youtube.com/watch?v=" video_url then
    match item (split "watch?v=" video_url) 1 with
    | Some after =>
        match item (split "&" after) 0 with
        | Some v => Some (Some v)
        | None => None
        end
    | None => None
    end
  else if contains "youtu.be/" video_url then
    match item (split "youtu.be/" video_url) 1 with
    | Some after =>
        match item (split "?" after) 0 with
        | Some v => Some (Some v)
        | None => None
        end
    | None => None
    end
  else Some None.

(** [get_video_details]: [None] stands for [IndexError], [Some None] for
    the returned [None]. *)
Definition get_video_details (video_url : string)
  : option (option VideoDetails) :=
  match extract_id video_url with
  | None => None
  | Some None => Some None
  | Some (Some v) =>
      if nonempty v
      then Some (Some {| video_id := v;
                         url := video_url;
                         embed_url := "https://www.youtube.com/embed/" ++ v |})
      else Some None
  end.

End Details.

(** ** [cv_analyser/utils/validators.py] *)

Module Validators.

Definition validate_text_length (text : string) (min_length max_length : Z)
  : bool * option string :=
  if negb (nonempty text) || negb (nonempty (strip text))
  then (false, Some "Text cannot be empty")
  else
    let text_len := Z.of_nat (String.length (strip text)) in
    if text_len <? min_length
    then (false, Some ("Text too short (minimum " ++ str_of_int min_length
                       ++ " characters, got " ++ str_of_int text_len ++ ")"))
    else if max_length <? text_len
    then (false, Some ("Text too long (maximum " ++ str_of_int max_length
                       ++ " characters, got " ++ str_of_int text_len ++ ")"))
    else (true, None).

Definition placeholder_values : list string :=
  ["your_api_key"; "api_key_here"; "xxx"; "test"].

Definition validate_api_key (api_key key_name : string) : bool * option string :=
  if negb (nonempty api_key) || negb (nonempty (strip api_key))
  then (false, Some (key_name ++ " cannot be empty"))
  else if (String.length (strip api_key) <? 10)%nat
  then (false, Some (key_name ++ " appears too short"))
  else if existsb (fun placeholder => contains placeholder (lower api_key))
                  placeholder_values
  then (false, Some (key_name ++ " appears to be a placeholder"))
  else (true, None).

Definition cv_keywords : list string :=
  ["experience"; "education"; "skills"; "work"; "university";
   "degree"; "job"; "position"; "project"; "achievement"].

Definition jd_keywords : list string :=
  ["requirements"; "responsibilities"; "qualifications"; "experience";
   "skills"; "required"; "preferred"; "must have"; "looking for"].

(** [sum(1 for keyword in keywords if keyword in text_lower)] *)
Definition keyword_count (keywords : list string) (text_lower : string) : nat :=
  List.length (filter (fun keyword => contains keyword text_lower) keywords).

Definition cv_warning : string :=
  "Warning: This doesn't look like a typical CV. Results may be inaccurate.".

Definition jd_warning : string :=
  "Warning: This doesn't look like a typical job description. Results may be inaccurate.".

Definition validate_cv_content (text : string) : bool * option string :=
  let text_lower := lower text in
  let keyword_count := keyword_count cv_keywords text_lower in
  if (keyword_count <? 2)%nat then (true, Some cv_warning) else (true, None).

Definition validate_job_description (text : string) : bool * option string :=
  let text_lower := lower text in
  let keyword_count := keyword_count jd_keywords text_lower in
  if (keyword_count <? 2)%nat then (true, Some jd_warning) else (true, None).

Definition three_newlines : string := newline ++ newline ++ newline.
Definition two_newlines : string := newline ++ newline.

(** The [while] loop of [sanitize_text]; every round removes a character,
    so the length of the text bounds the rounds. *)
Fixpoint limit_newlines (rounds : nat) (text : string) : string :=
  match rounds with
  | O => text
  | S n =>
      if contains three_newlines text
      then limit_newlines n (replace three_newlines two_newlines text)
      else text
  end.

Definition sanitize_text (text : string) : string :=
  let text := join " " (words text) in
  let text := replace nul "" text in
  let text := limit_newlines (String.length text) text in
  strip text.

End Validators.

(** ** [cv_analyser/utils/pdf_parser.py] *)

Module Pdf.

(** What the PDF library does with the file; the library is not part of
    the repository. *)
Inductive failure : Type :=
| PdfReadError (msg : string)     (* PyPDF2.errors.PdfReadError *)
| OtherException (msg : string).  (* any other exception *)

(** [page.extract_text()] *)
Inductive page : Type :=
| PageText (page_text : string)
| PageError (msg : string).

Record reader : Type := {
  is_encrypted : bool;
  (** [decrypt('')]: the message of the exception it raises, if any *)
  decrypt : option string;
  (** [pdf_reader.pages] *)
  pages : failure + list page
}.

Inductive extracted : Type :=
| Extracted (text : string)
| PDFParseError (msg : string).

(** The loop over the pages: a page that raises or gives no text adds
    nothing. *)
Fixpoint text_content (l : list page) : list string :=
  match l with
  | [] => []
  | PageText page_text :: rest =>
      if nonempty page_text then page_text :: text_content rest
      else text_content rest
  | PageError _ :: rest => text_content rest
  end.

Definition invalid_pdf (msg : string) : extracted :=
  PDFParseError ("Invalid PDF file: " ++ msg).

Definition failed_to_parse (msg : string) : extracted :=
  PDFParseError ("Failed to parse PDF: " ++ msg).

(** The two handlers of the outer [try]. *)
Definition handle (f : failure) : extracted :=
  match f with
  | PdfReadError msg => invalid_pdf msg
  | OtherException msg => failed_to_parse msg
  end.

(** [extract_text]; [opened] is the outcome of [pdf_file.seek(0)] and
    [PyPDF2.PdfReader(pdf_file)]. *)
Definition extract_text (opened : failure + reader) : extracted :=
  match opened with
  | inl f => handle f
  | inr pdf_reader =>
      match (if is_encrypted pdf_reader then decrypt pdf_reader else None) with
      | Some msg =>
          (* the PDFParseError raised here is caught by the last handler *)
          failed_to_parse ("Cannot decrypt PDF: " ++ msg)
      | None =>
          match pages pdf_reader with
          | inl f => handle f
          | inr l =>
              let full_text := join newline (text_content l) in
              if negb (nonempty (strip full_text))
              then failed_to_parse "No text could be extracted from PDF"
              else if (String.length (strip full_text) <? 50)%nat
              then failed_to_parse "Extracted text is too short, PDF may be image-based"
              else Extracted (strip full_text)
          end
      end
  end.

(** [validate_pdf] *)
Definition validate_pdf (opened : failure + reader) : bool :=
  match opened with
  | inl _ => false
  | inr pdf_reader =>
      match pages pdf_reader with
      | inl _ => false
      | inr l => negb (Nat.eqb (List.length l) 0)
      end
  end.

End Pdf.

(** ** [AnalysisRequest] of [cv_analyser/models/schemas.py] *)

Module Requests.

Record AnalysisRequest : Type := {
  cv_text : string;
  job_description : string
}.

(** [Field(..., min_length=50)], then [validate_text_content]. *)
Definition validate_text_content (v : string) : option string :=
  if (String.length (strip v) <? 50)%nat then None else Some (strip v).

Definition text_field (v : string) : option string :=
  if (String.length v <? 50)%nat then None else validate_text_content v.

Definition AnalysisRequest_init (cv jd : string) : result AnalysisRequest :=
  let c := text_field cv in
  let j := text_field jd in
  match c, j with
  | Some c', Some j' => Ok {| cv_text := c'; job_description := j' |}
  | _, _ =>
      Raise (Fault (Invalid "AnalysisRequest"
                      (errors_of "cv_text" c ++ errors_of "job_description" j)))
  end.

End Requests.

(** ** [GroqService._build_analysis_prompt] *)

Module Prompt.

Definition max_cv_length : nat := 2800.
Definition max_jd_length : nat := 1800.

(** [text[:limit] + "..."] when [len(text) > limit] *)
Definition truncate (limit : nat) (text : string) : string :=
  if (limit <? String.length text)%nat then take limit text ++ "..." else text.

Section Template.

(** The three fixed parts of the f-string: before the CV, between the CV
    and the job description, and after it. *)
Variables head middle tail : string.

Definition _build_analysis_prompt (cv_text job_description : string) : string :=
  let cv_text := truncate max_cv_length cv_text in
  let job_description := truncate max_jd_length job_description in
  head ++ cv_text ++ middle ++ job_description ++ tail.

End Template.

End Prompt.

(** ** [display_analysis_results] of [cv_analyser/app.py]: the search it
    issues *)

Module App.

(** [raw_missing = analysis.missing_skills or []] and the comprehension
    over it. *)
Definition real_missing_skills (analysis : CVAnalysis) : list string :=
  filter (fun s => nonempty (strip s)
                   && negb (lower (strip s) =? "not specified")%string)
         (missing_skills analysis).

Definition search_query (selected_skill : string) : string :=
  selected_skill ++ " tutorial, latest on youtube".

End App.

(** ** More predicates of the statements *)

(** Every character of [s] satisfies [p]. *)
Fixpoint all_chars (p : ascii -> bool) (s : string) : bool :=
  match s with
  | EmptyString => true
  | String c r => p c && all_chars p r
  end.

(** A character [sanitize_text] lets through: not NUL, and no blank other
    than the space. *)
Definition sanitized_char (c : ascii) : bool :=
  negb (c =? ascii_of_nat 0)%char && (negb (isspace c) || (c =? " ")%char).

(** The pages that add text. *)
Definition readable (p : Pdf.page) : bool :=
  match p with
  | Pdf.PageText t => nonempty t
  | Pdf.PageError _ => false
  end.

(** * Properties *)

(** ** The error monad *)

Lemma bind_ok {A B : Type} (m : result A) (k : A -> result B) (b : B) :
  bind m k = Ok b -> exists a, m = Ok a /\ k a = Ok b.
Proof.
  destruct m as [a | e]; simpl; intros H; [ | discriminate ].
  exists a; split; [ reflexivity | exact H ].
Qed.

Lemma bind_raise {A B : Type} (m : result A) (k : A -> result B) (e : exn) :
  bind m k = Raise e -> m = Raise e \/ exists a, m = Ok a /\ k a = Raise e.
Proof.
  destruct m as [a | e']; simpl; intros H.
  - right; exists a; split; [ reflexivity | exact H ].
  - left; injection H as ->; reflexivity.
Qed.

(** ** Key-alias resolution *)

Section Resolution.

Variable d : dict.

Lemma resolved_first_truthy (f : field) :
  resolved f d = first_truthy d (aliases f) (hard_default f).
Proof. destruct f; reflexivity. Qed.

Lemma first_truthy_cases (keys : list string) (dflt : json) :
  (exists pre k post,
      keys = (pre ++ k :: post)%list
      /\ Forall (fun k' => truthy (get d k') = false) pre
      /\ truthy (get d k) = true
      /\ first_truthy d keys dflt = get d k)
  \/ (Forall (fun k => truthy (get d k) = false) keys
      /\ first_truthy d keys dflt = dflt).
Proof.
  induction keys as [ | k rest IH ]; simpl.
  - right; split; [ constructor | reflexivity ].
  - destruct (truthy (get d k)) eqn:Hk.
    + left; exists [], k, rest; repeat split; auto.
    + destruct IH as [ (pre & k' & post & -> & Hpre & Hk' & Heq) | [Hall Heq] ].
      * left; exists (k :: pre), k', post; repeat split; auto.
      * right; split; auto.
Qed.

(** A resolved value that is falsy is the hard default itself. *)
Lemma first_truthy_falsy (keys : list string) (dflt : json) :
  truthy (first_truthy d keys dflt) = false -> first_truthy d keys dflt = dflt.
Proof.
  induction keys as [ | k rest IH ]; simpl; [ reflexivity | ].
  destruct (truthy (get d k)) eqn:Hk; [ congruence | exact IH ].
Qed.

End Resolution.

(** C4, as amended.  Each of the eight fields resolves to the value under
    the first alias, in the field's fixed order, whose value is truthy: an
    absent key, null, false, 0, the empty string, the empty list and the
    empty object all mean "try the next alias".  The hard default (0, the
    empty list or the empty string) comes out only when no alias has a
    truthy value. *)
Theorem alias_resolution_first_truthy (f : field) (d : dict) :
  (exists pre k post,
      aliases f = (pre ++ k :: post)%list
      /\ Forall (fun k' => truthy (get d k') = false) pre
      /\ truthy (get d k) = true
      /\ resolved f d = get d k)
  \/ (Forall (fun k => truthy (get d k) = false) (aliases f)
      /\ resolved f d = hard_default f).
Proof.
  rewrite resolved_first_truthy.
  apply first_truthy_cases.
Qed.

(** C4, as stated, fails: with an empty list under the first alias of the
    strengths and a filled list under the second, the wording ("present and
    non-null") selects the empty list, and the code selects the filled one. *)
Lemma alias_resolution_skips_empty_list :
  let d := [("matching_skills", JList []);
            ("strong_skills", JList [JStr "Python"])] in
  resolve_spec d (aliases Strengths) (hard_default Strengths) = JList []
  /\ resolved Strengths d = JList [JStr "Python"]
  /\ resolved Strengths d <> resolve_spec d (aliases Strengths) (hard_default Strengths).
Proof.
  repeat split; try reflexivity.
  vm_compute; discriminate.
Qed.

(** ** Shape coercion *)

(** The name of a structured entry: the first truthy value under "name",
    then "skill", and failing both the stringified entry. *)
Lemma coerce_item_name (d : dict) :
  por (get d "name") (por (get d "skill") (JStr (str (JDict d))))
  = first_truthy d ["name"; "skill"] (JStr (repr (JDict d))).
Proof. reflexivity. Qed.

Lemma coerce_item_weighted (d : dict) :
  get d "importance" <> JNull ->
  Groq.coerce_item (JDict d)
  = JStr (str (first_truthy d ["name"; "skill"] (JStr (repr (JDict d))))
          ++ " (importance " ++ str (get d "importance") ++ "/10)").
Proof.
  intros Hw. unfold Groq.coerce_item. rewrite coerce_item_name.
  destruct (get d "importance"); try reflexivity. contradiction.
Qed.

Lemma coerce_item_unweighted (d : dict) :
  get d "importance" = JNull ->
  Groq.coerce_item (JDict d)
  = first_truthy d ["name"; "skill"] (JStr (repr (JDict d))).
Proof.
  intros Hw. unfold Groq.coerce_item. rewrite coerce_item_name, Hw. reflexivity.
Qed.

(** [List[str]] refuses a list that holds a value other than a string. *)
Lemma str_list_field_rejects (l : list json) (v : json) :
  In v l -> is_str v = false -> str_list_field l = None.
Proof.
  induction l as [ | x l IH ]; simpl; [ contradiction | ].
  intros [ -> | Hin ] Hv.
  - destruct v; try reflexivity. discriminate.
  - rewrite (IH Hin Hv). destruct (str_field x); reflexivity.
Qed.




(** The coercion on a list with one entry of each shape. *)
Example skill_entry_coercion_sample :
  Groq.normalize_skills
    (JList [JStr "Python";
            JDict [("name", JStr "Docker"); ("importance", JInt 9)];
            JDict [("skill", JStr "Go")];
            JInt 3; JNull])
  = [JStr "Python"; JStr "Docker (importance 9/10)"; JStr "Go";
     JStr "3"; JStr "None"].
Proof. reflexivity. Qed.

(** ** The interpreter's operations raise faults only *)

Lemma len_sized (v : json) : sized v = true -> exists n, len v = Ok n.
Proof. destruct v; simpl; try discriminate; eauto. Qed.

Lemma len_ok (v : json) (n : Z) : len v = Ok n -> sized v = true.
Proof. destruct v; simpl; try discriminate; reflexivity. Qed.

Lemma len_raise (v : json) (e : exn) : len v = Raise e -> is_fault e.
Proof.
  destruct v; simpl; intros H; try discriminate; injection H as <-; eexists; reflexivity.
Qed.

Lemma int_of_raise (v : json) (e : exn) : int_of v = Raise e -> is_fault e.
Proof.
  destruct v; simpl; try destruct (int_of_str s); intros H; try discriminate;
    injection H as <-; eexists; reflexivity.
Qed.

Lemma strip_of_raise (v : json) (e : exn) : strip_of v = Raise e -> is_fault e.
Proof.
  destruct v; simpl; intros H; try discriminate; injection H as <-; eexists; reflexivity.
Qed.

Lemma is_blank_raise (v : json) (e : exn) : Groq.is_blank v = Raise e -> is_fault e.
Proof.
  unfold Groq.is_blank. destruct (truthy v); simpl; [ | discriminate ].
  destruct (strip_of v) eqn:Hs; simpl; [ discriminate | ].
  intros H; injection H as <-. eapply strip_of_raise; eassumption.
Qed.

Lemma gaps_of_raise (v : json) (e : exn) : Groq.gaps_of v = Raise e -> is_fault e.
Proof.
  unfold Groq.gaps_of. destruct (truthy v); [ | discriminate ].
  destruct (strip_of v) eqn:Hs; simpl.
  - destruct (nonempty a); discriminate.
  - intros H; injection H as <-. eapply strip_of_raise; eassumption.
Qed.

Lemma all_zero_raise (o s e d : json) (x : exn) :
  Groq.all_zero o s e d = Raise x -> is_fault x.
Proof.
  unfold Groq.all_zero.
  destruct (int_of o) as [zo | xo] eqn:Ho; cbn [bind];
    [ | intros H; injection H as <-; eapply int_of_raise; eassumption ].
  destruct (negb (zo =? 0)); [ discriminate | ].
  destruct (int_of s) as [zs | xs] eqn:Hs; cbn [bind];
    [ | intros H; injection H as <-; eapply int_of_raise; eassumption ].
  destruct (negb (zs =? 0)); [ discriminate | ].
  destruct (int_of e) as [ze | xe] eqn:He; cbn [bind];
    [ | intros H; injection H as <-; eapply int_of_raise; eassumption ].
  destruct (negb (ze =? 0)); [ discriminate | ].
  destruct (int_of d) as [zd | xd] eqn:Hd; cbn [bind];
    [ discriminate | intros H; injection H as <-; eapply int_of_raise; eassumption ].
Qed.

Lemma all_zero_true (o s e d : json) :
  Groq.all_zero o s e d = Ok true
  <-> casts_to o 0 /\ casts_to s 0 /\ casts_to e 0 /\ casts_to d 0.
Proof.
  unfold Groq.all_zero, casts_to. split.
  - destruct (int_of o) as [zo | xo]; cbn [bind]; [ | discriminate ].
    destruct (Z.eqb_spec zo 0) as [-> | _]; cbn [negb]; [ | discriminate ].
    destruct (int_of s) as [zs | xs]; cbn [bind]; [ | discriminate ].
    destruct (Z.eqb_spec zs 0) as [-> | _]; cbn [negb]; [ | discriminate ].
    destruct (int_of e) as [ze | xe]; cbn [bind]; [ | discriminate ].
    destruct (Z.eqb_spec ze 0) as [-> | _]; cbn [negb]; [ | discriminate ].
    destruct (int_of d) as [zd | xd]; cbn [bind]; [ | discriminate ].
    destruct (Z.eqb_spec zd 0) as [-> | _]; [ auto | discriminate ].
  - intros (-> & -> & -> & ->). reflexivity.
Qed.

Lemma CVAnalysis_init_raise (a : CVAnalysis_args) (e : exn) :
  CVAnalysis_init a = Raise e -> is_fault e.
Proof.
  unfold CVAnalysis_init.
  repeat match goal with
         | |- context [match ?x with Some _ => _ | None => _ end] => destruct x
         end;
    intros H; try discriminate; injection H as <-; eexists; reflexivity.
Qed.

(** ** The emptiness test of a skill list *)

Lemma truly_empty_no_real_entries (l : list json) :
  Groq._is_truly_empty_list l = no_real_entries l.
Proof.
  assert (H : forall l,
             forallb (fun x => Groq.mem x Groq.sentinels)
               (map (fun x => lower (strip (str x)))
                  (filter (fun x => nonempty (strip (str x))) l))
             = no_real_entries l).
  { clear l. induction l as [ | x l IH ]; [ reflexivity | ].
    cbn [filter no_real_entries forallb]. unfold blank_entry at 1.
    destruct (nonempty (strip (str x))); cbn [negb orb map forallb].
    - fold (sentinel_entry x). f_equal. exact IH.
    - exact IH. }
  rewrite <- H. unfold Groq._is_truly_empty_list.
  destruct l as [ | x l ]; [ reflexivity | ].
  destruct (map _ (filter _ (x :: l))) as [ | c cs ]; [ reflexivity | ].
  destruct (forallb _ (c :: cs)); reflexivity.
Qed.

Lemma sentinel_only_no_real_entries (l : list json) :
  sentinel_only_spec l = true -> no_real_entries l = true.
Proof.
  unfold sentinel_only_spec, no_real_entries. rewrite !forallb_forall.
  intros H x Hx. rewrite (H x Hx). apply orb_true_r.
Qed.

(** ** Blank summary and query *)

Lemma is_blank_resolved (d : dict) (keys : list string) :
  Groq.is_blank (first_truthy d keys (JStr "")) = Ok true
  <-> blank_text (first_truthy d keys (JStr "")) = true.
Proof.
  unfold Groq.is_blank.
  destruct (truthy (first_truthy d keys (JStr ""))) eqn:Ht; cbn [negb].
  - destruct (first_truthy d keys (JStr "")) as [ | b | z | s | l | dd ];
      simpl; try (split; discriminate).
    destruct (nonempty (strip s)); simpl; split; congruence.
  - rewrite (first_truthy_falsy _ _ _ Ht). simpl. split; reflexivity.
Qed.

Lemma is_blank_ok_str (d : dict) (keys : list string) (b : bool) :
  Groq.is_blank (first_truthy d keys (JStr "")) = Ok b ->
  is_str (first_truthy d keys (JStr "")) = true.
Proof.
  unfold Groq.is_blank.
  destruct (truthy (first_truthy d keys (JStr ""))) eqn:Ht; cbn [negb].
  - destruct (first_truthy d keys (JStr "")); simpl; try discriminate. reflexivity.
  - rewrite (first_truthy_falsy _ _ _ Ht). reflexivity.
Qed.

(** ** The three ways the conversion block ends *)

Lemma convert_trace (d : dict) :
  (exists f, Groq.convert d = Raise (Fault f))
  \/ (Groq.convert d = Raise (GroqAPIError Groq.empty_analysis_msg)
      /\ empty_analysis d)
  \/ (exists o s e dd gaps,
        ~ empty_analysis d
        /\ is_str (Groq.summary_of d) = true /\ is_str (Groq.query_of d) = true
        /\ casts_to (Groq.overall_of d) o /\ casts_to (Groq.skills_of d) s
        /\ casts_to (Groq.experience_of d) e /\ casts_to (Groq.education_of d) dd
        /\ Groq.gaps_of (Groq.summary_of d) = Ok gaps
        /\ Groq.convert d = CVAnalysis_init (converted_data d o s e dd gaps)).
Proof.
  unfold Groq.convert.
  destruct (len (Groq.strengths_of d)) as [n1 | x] eqn:L1; cbn [bind];
    [ | left; destruct (len_raise _ _ L1) as [f ->]; eauto ].
  destruct (len (Groq.missing_of d)) as [n2 | x] eqn:L2; cbn [bind];
    [ | left; destruct (len_raise _ _ L2) as [f ->]; eauto ].
  destruct (Groq.all_zero _ _ _ _) as [z | x] eqn:Z; cbn [bind];
    [ | left; destruct (all_zero_raise _ _ _ _ _ Z) as [f ->]; eauto ].
  destruct (Groq.is_blank (Groq.summary_of d)) as [bs | x] eqn:Bs; cbn [bind];
    [ | left; destruct (is_blank_raise _ _ Bs) as [f ->]; eauto ].
  destruct (Groq.is_blank (Groq.query_of d)) as [bq | x] eqn:Bq; cbn [bind];
    [ | left; destruct (is_blank_raise _ _ Bq) as [f ->]; eauto ].
  rewrite !truly_empty_no_real_entries.
  pose proof (is_blank_resolved d (aliases Summary)) as Rs.
  pose proof (is_blank_resolved d (aliases Query)) as Rq.
  change (first_truthy d (aliases Summary) (JStr "")) with (Groq.summary_of d) in Rs.
  change (first_truthy d (aliases Query) (JStr "")) with (Groq.query_of d) in Rq.
  destruct (z && _ && _ && bs && bq) eqn:G.
  - right; left. split; [ reflexivity | ].
    repeat (apply andb_true_iff in G; destruct G as [G ?]); subst.
    split; [ apply all_zero_true; exact Z | ].
    repeat split; eauto using len_ok.
    + apply Rs; exact Bs.
    + apply Rq; exact Bq.
  - assert (N : ~ empty_analysis d).
    { intros (Hz & _ & _ & Hs & Hm & Hbs & Hbq).
      apply all_zero_true in Hz. rewrite Hz in Z. injection Z as <-.
      apply Rs in Hbs. rewrite Hbs in Bs. injection Bs as <-.
      apply Rq in Hbq. rewrite Hbq in Bq. injection Bq as <-.
      rewrite Hs, Hm in G. discriminate. }
    destruct (int_of (Groq.overall_of d)) as [o | x] eqn:Io; cbn [bind];
      [ | left; destruct (int_of_raise _ _ Io) as [f ->]; eauto ].
    destruct (int_of (Groq.skills_of d)) as [s | x] eqn:Is; cbn [bind];
      [ | left; destruct (int_of_raise _ _ Is) as [f ->]; eauto ].
    destruct (int_of (Groq.experience_of d)) as [e | x] eqn:Ie; cbn [bind];
      [ | left; destruct (int_of_raise _ _ Ie) as [f ->]; eauto ].
    destruct (int_of (Groq.education_of d)) as [dd | x] eqn:Id; cbn [bind];
      [ | left; destruct (int_of_raise _ _ Id) as [f ->]; eauto ].
    destruct (Groq.gaps_of (Groq.summary_of d)) as [gaps | x] eqn:Gp; cbn [bind];
      [ | left; destruct (gaps_of_raise _ _ Gp) as [f ->]; eauto ].
    right; right. exists o, s, e, dd, gaps.
    split; [ exact N | ].
    split; [ apply (is_blank_ok_str d (aliases Summary) bs); exact Bs | ].
    split; [ apply (is_blank_ok_str d (aliases Query) bq); exact Bq | ].
    repeat split; auto.
    unfold converted_data.
    destruct (Groq.normalize_skills (Groq.strengths_of d)),
             (Groq.normalize_skills (Groq.missing_of d)); reflexivity.
Qed.

(** ** The model constructor *)

Lemma score_field_some (v r : Z) :
  score_field v = Some r -> r = v /\ 0 <= v <= 100.
Proof.
  unfold score_field, validate_score, in_bounds.
  destruct ((0 <=? v) && (v <=? 100)) eqn:B; cbn [negb]; [ | discriminate ].
  intros H; injection H as <-. apply andb_true_iff in B. lia.
Qed.

Lemma score_field_none (v : Z) : v < 0 \/ 100 < v -> score_field v = None.
Proof.
  intros H. unfold score_field, in_bounds.
  destruct ((0 <=? v) && (v <=? 100)) eqn:B; [ | reflexivity ].
  apply andb_true_iff in B. lia.
Qed.

Lemma str_list_field_some (l : list json) (r : list string) :
  str_list_field l = Some r -> l = map JStr r.
Proof.
  revert r. induction l as [ | v l IH ]; simpl; intros r H.
  - injection H as <-. reflexivity.
  - destruct v; try discriminate. simpl in H.
    destruct (str_list_field l) as [ r' | ]; [ | discriminate ].
    injection H as <-. simpl. f_equal. apply IH. reflexivity.
Qed.

Lemma CVAnalysis_init_ok (a : CVAnalysis_args) (r : CVAnalysis) :
  CVAnalysis_init a = Ok r ->
  (overall_score r = arg_overall_score a /\ 0 <= overall_score r <= 100)
  /\ (skills_match r = arg_skills_match a /\ 0 <= skills_match r <= 100)
  /\ (experience_match r = arg_experience_match a /\ 0 <= experience_match r <= 100)
  /\ (education_match r = arg_education_match a /\ 0 <= education_match r <= 100)
  /\ (exists l, arg_strengths a = map JStr l
                /\ strengths r = validate_lists_minimum l)
  /\ (exists l, arg_missing_skills a = map JStr l
                /\ missing_skills r = validate_lists_minimum l)
  /\ gaps_analysis r = validate_gaps_analysis (arg_gaps_analysis a)
  /\ (exists q, arg_youtube_search_query a = JStr q
                /\ youtube_search_query r = validate_youtube_query q).
Proof.
  unfold CVAnalysis_init.
  destruct (score_field (arg_overall_score a)) as [ o | ] eqn:Ho; [ | discriminate ].
  destruct (score_field (arg_skills_match a)) as [ s | ] eqn:Hs; [ | discriminate ].
  destruct (score_field (arg_experience_match a)) as [ e | ] eqn:He; [ | discriminate ].
  destruct (score_field (arg_education_match a)) as [ d | ] eqn:Hd; [ | discriminate ].
  destruct (str_list_field (arg_strengths a)) as [ st | ] eqn:Hst;
    cbn [option_map]; [ | discriminate ].
  destruct (str_list_field (arg_missing_skills a)) as [ ms | ] eqn:Hms;
    cbn [option_map]; [ | discriminate ].
  destruct (str_field (arg_youtube_search_query a)) as [ q | ] eqn:Hq;
    cbn [option_map]; [ | discriminate ].
  intros H; injection H as <-; cbn.
  apply score_field_some in Ho, Hs, He, Hd.
  apply str_list_field_some in Hst, Hms.
  destruct (arg_youtube_search_query a); try discriminate. injection Hq as ->.
  repeat split; try lia; eauto.
Qed.

Lemma CVAnalysis_init_out_of_range (a : CVAnalysis_args) (z : Z) :
  z < 0 \/ 100 < z ->
  arg_overall_score a = z \/ arg_skills_match a = z
  \/ arg_experience_match a = z \/ arg_education_match a = z ->
  exists fields, CVAnalysis_init a = Raise (Fault (Invalid "CVAnalysis" fields)).
Proof.
  intros Hz Ha. unfold CVAnalysis_init.
  destruct Ha as [ <- | [ <- | [ <- | <- ] ] ];
    rewrite (score_field_none _ Hz);
    repeat match goal with
           | |- context [match ?x with Some _ => _ | None => _ end] => destruct x
           end;
    eexists; reflexivity.
Qed.

Lemma validate_lists_minimum_nonempty (l : list string) :
  validate_lists_minimum l <> [].
Proof. destruct l; discriminate. Qed.

(** ** The emptiness guard *)

Lemma empty_analysis_fires (d : dict) :
  empty_analysis d ->
  Groq.convert d = Raise (GroqAPIError Groq.empty_analysis_msg).
Proof.
  intros (Hz & Ls & Lm & Hs & Hm & Hbs & Hbq).
  unfold Groq.convert.
  destruct (len_sized _ Ls) as [n1 ->]. destruct (len_sized _ Lm) as [n2 ->].
  cbn [bind]. apply all_zero_true in Hz. rewrite Hz. cbn [bind].
  rewrite !truly_empty_no_real_entries, Hs, Hm.
  apply (is_blank_resolved d (aliases Summary)) in Hbs.
  apply (is_blank_resolved d (aliases Query)) in Hbq.
  change (first_truthy d (aliases Summary) (JStr "")) with (Groq.summary_of d) in Hbs.
  change (first_truthy d (aliases Query) (JStr "")) with (Groq.query_of d) in Hbq.
  rewrite Hbs, Hbq. reflexivity.
Qed.

(** C1, as amended.  The conversion raises the empty-analysis error exactly
    when all four scores cast to 0, both skill lists have a length and,
    once coerced, hold nothing but entries that are blank or a sentinel
    ("not specified", "n/a", "none") after trimming and lower-casing, and
    the summary and the query are blank.  In particular it is raised when
    the lists are empty or sentinel-only as the specification words it, and
    the caller then receives the error wrapped by the conversion handler,
    never an [Ok] record. *)
Theorem empty_analysis_guard (d : dict) :
  (Groq.convert d = Raise (GroqAPIError Groq.empty_analysis_msg)
   <-> empty_analysis d)
  /\ (empty_analysis_spec d -> empty_analysis d)
  /\ (empty_analysis d ->
      forall fault_text,
        Groq.normalize fault_text d
        = Raise (GroqAPIError
                   (Groq.parse_failed_prefix ++ Groq.empty_analysis_msg))).
Proof.
  split; [ split | split ].
  - intros H.
    destruct (convert_trace d) as [ [f Hf] | [ [_ He] | (o & s & e & dd & g & _ & _ & _ & _ & _ & _ & _ & _ & Hc) ] ].
    + rewrite Hf in H; discriminate.
    + exact He.
    + rewrite Hc in H.
      destruct (CVAnalysis_init_raise _ _ H) as [f Hf]; discriminate.
  - apply empty_analysis_fires.
  - intros (Hz & Ls & Lm & Hs & Hm & Hb). repeat split; try tauto.
    + apply sentinel_only_no_real_entries; exact Hs.
    + apply sentinel_only_no_real_entries; exact Hm.
  - intros He fault_text. unfold Groq.normalize.
    rewrite (empty_analysis_fires _ He). reflexivity.
Qed.

(** C1 on the payload the prompt calls the bad output: nothing but the
    defaults. *)
Example empty_analysis_guard_sample :
  Groq.normalize cpython_text []
  = Raise (GroqAPIError
             "Failed to parse API response into valid format: The AI returned an empty analysis. Please try again or slightly shorten your CV / job description.").
Proof. reflexivity. Qed.

(** C1, as stated, fails in its converse: a strengths list holding one
    blank string is neither empty nor sentinel-only, and the guard fires
    all the same. *)
Lemma blank_entry_fires_guard :
  let d := [("matching_skills", JList [JStr " "])] in
  Groq.convert d = Raise (GroqAPIError Groq.empty_analysis_msg)
  /\ sentinel_only_spec (Groq.normalize_skills (Groq.strengths_of d)) = false
  /\ ~ empty_analysis_spec d.
Proof.
  repeat split; try reflexivity.
  intros (_ & _ & _ & H & _). vm_compute in H. discriminate.
Qed.

(** The casts of the guard are those of [int]: a score written with
    spaces around its digit is cast, and one written with a unit separator
    after it is refused, so that the conversion fails on the cast and the
    guard is not reached. *)
Example separator_padded_score_refused :
  let score := JStr (String "0" (String (ascii_of_nat 31) EmptyString)) in
  int_of (JStr " 0 ") = Ok 0
  /\ strip_of score = Ok "0"
  /\ int_of score = Raise (Fault (BadInt score))
  /\ Groq.convert [("overall_score", score)] = Raise (Fault (BadInt score))
  /\ ~ empty_analysis [("overall_score", score)].
Proof.
  repeat split; try reflexivity.
  intros ((H & _) & _). vm_compute in H. discriminate.
Qed.

(** ** Scores out of bounds *)

(** C2.  When any of the four resolved scores casts to an integer below 0
    or above 100, the conversion raises an interpreter or library fault
    (never the empty-analysis error, never a record with the score clamped),
    and the caller receives it as the "Failed to parse API response into
    valid format" error. *)
Theorem out_of_range_score_rejected
    (fault_text : fault -> string) (d : dict) (z : Z) :
  casts_to (Groq.overall_of d) z \/ casts_to (Groq.skills_of d) z
  \/ casts_to (Groq.experience_of d) z \/ casts_to (Groq.education_of d) z ->
  z < 0 \/ 100 < z ->
  exists f,
    Groq.convert d = Raise (Fault f)
    /\ Groq.normalize fault_text d
       = Raise (GroqAPIError
                  (Groq.parse_failed_prefix ++ exn_str fault_text (Fault f))).
Proof.
  intros Hc Hz.
  assert (F : exists f, Groq.convert d = Raise (Fault f)).
  { destruct (convert_trace d)
      as [ F | [ [_ He] | (o & s & e & dd & g & _ & _ & _ & Ho & Hs & He & Hd & _ & Hcv) ] ].
    - exact F.
    - exfalso. destruct He as ((Ho & Hs & He & Hd) & _).
      unfold casts_to in *.
      destruct Hc as [ H | [ H | [ H | H ] ] ]; [ rewrite Ho in H | rewrite Hs in H | rewrite He in H | rewrite Hd in H ];
        injection H as <-; lia.
    - unfold casts_to in *.
      assert (Ha : arg_overall_score (converted_data d o s e dd g) = z
                   \/ arg_skills_match (converted_data d o s e dd g) = z
                   \/ arg_experience_match (converted_data d o s e dd g) = z
                   \/ arg_education_match (converted_data d o s e dd g) = z).
      { cbn. destruct Hc as [ H | [ H | [ H | H ] ] ];
          [ rewrite Ho in H | rewrite Hs in H | rewrite He in H | rewrite Hd in H ];
          injection H as <-; auto. }
      destruct (CVAnalysis_init_out_of_range _ _ Hz Ha) as [fields Hf].
      exists (Invalid "CVAnalysis" fields). rewrite Hcv. exact Hf. }
  destruct F as [f Hf]. exists f. split; [ exact Hf | ].
  unfold Groq.normalize. rewrite Hf. reflexivity.
Qed.

Lemma out_of_range_score_rejected_witness :
  exists f,
    Groq.convert [("overall_score", JInt 150)] = Raise (Fault f)
    /\ Groq.normalize cpython_text [("overall_score", JInt 150)]
       = Raise (GroqAPIError
                  (Groq.parse_failed_prefix ++ exn_str cpython_text (Fault f))).
Proof.
  apply (out_of_range_score_rejected cpython_text
           [("overall_score", JInt 150)] 150).
  - left. reflexivity.
  - right. lia.
Defined.

(** The two scores the specification names: 150 and -5. *)
Example out_of_range_score_samples :
  Groq.convert [("overall_score", JInt 150)]
  = Raise (Fault (Invalid "CVAnalysis" ["overall_score"]))
  /\ Groq.convert [("overall_score", JInt 50); ("Education Match", JInt (-5))]
     = Raise (Fault (Invalid "CVAnalysis" ["education_match"])).
Proof. split; reflexivity. Qed.

(** ** The returned record *)

(** C3, as amended.  Every record the normalizer returns has its four
    scores between 0 and 100, and its two skill lists non-empty lists of
    strings: the coerced entries of the payload's list when there are any
    (the empty string among them, if the payload has it), and the single
    sentinel "Not specified" when there are none. *)
Theorem returned_analysis_invariants
    (fault_text : fault -> string) (d : dict) (a : CVAnalysis) :
  Groq.normalize fault_text d = Ok a ->
  0 <= overall_score a <= 100
  /\ 0 <= skills_match a <= 100
  /\ 0 <= experience_match a <= 100
  /\ 0 <= education_match a <= 100
  /\ strengths a <> [] /\ missing_skills a <> []
  /\ (Groq.normalize_skills (Groq.strengths_of d) = [] ->
      strengths a = ["Not specified"])
  /\ (Groq.normalize_skills (Groq.missing_of d) = [] ->
      missing_skills a = ["Not specified"])
  /\ (Groq.normalize_skills (Groq.strengths_of d) <> [] ->
      map JStr (strengths a) = Groq.normalize_skills (Groq.strengths_of d))
  /\ (Groq.normalize_skills (Groq.missing_of d) <> [] ->
      map JStr (missing_skills a) = Groq.normalize_skills (Groq.missing_of d)).
Proof.
  unfold Groq.normalize.
  destruct (Groq.convert d) as [ a' | x ] eqn:Hc; [ | discriminate ].
  intros H; injection H as ->.
  destruct (convert_trace d)
    as [ [f Hf] | [ [He _] | (o & s & e & dd & g & _ & _ & _ & _ & _ & _ & _ & _ & Hcv) ] ];
    try congruence.
  rewrite Hcv in Hc. apply CVAnalysis_init_ok in Hc.
  destruct Hc as ((_ & Ho) & (_ & Hs) & (_ & He) & (_ & Hd)
                  & (st & Hst & Est) & (ms & Hms & Ems) & _).
  cbn [converted_data arg_strengths arg_missing_skills] in Hst, Hms.
  assert (K : forall (norm : list json) (l : list string),
             match norm with [] => [JStr "Not specified"] | v :: r => v :: r end
             = map JStr l ->
             validate_lists_minimum l <> []
             /\ (norm = [] -> validate_lists_minimum l = ["Not specified"])
             /\ (norm <> [] -> map JStr (validate_lists_minimum l) = norm)).
  { intros norm l E. split; [ apply validate_lists_minimum_nonempty | ].
    destruct norm as [ | v norm ].
    - destruct l as [ | t [ | t' l ] ]; try discriminate.
      injection E as <-. split; [ reflexivity | congruence ].
    - destruct l as [ | t l ]; [ discriminate | ].
      split; [ discriminate | intros _; symmetry; exact E ]. }
  rewrite Est, Ems.
  destruct (K _ _ Hst) as (K1 & K2 & K3). destruct (K _ _ Hms) as (K4 & K5 & K6).
  repeat split; auto; lia.
Qed.

Lemma returned_analysis_invariants_witness :
  let a := {| overall_score := 68; skills_match := 72; experience_match := 65;
              education_match := 80; strengths := ["Python"];
              missing_skills := ["Not specified"];
              gaps_analysis := gaps_fallback;
              youtube_search_query := query_fallback |} in
  0 <= overall_score a <= 100
  /\ 0 <= skills_match a <= 100
  /\ 0 <= experience_match a <= 100
  /\ 0 <= education_match a <= 100
  /\ strengths a <> [] /\ missing_skills a <> [].
Proof.
  pose proof (returned_analysis_invariants cpython_text
                [("overall_score", JInt 68); ("skills_match", JInt 72);
                 ("experience_match", JInt 65); ("education_match", JInt 80);
                 ("matching_skills", JList [JStr "Python"])]
                ({| overall_score := 68; skills_match := 72;
                         experience_match := 65; education_match := 80;
                         strengths := ["Python"];
                         missing_skills := ["Not specified"];
                         gaps_analysis := gaps_fallback;
                         youtube_search_query := query_fallback |})
                eq_refl) as H.
  cbv zeta. tauto.
Defined.

(** C3, as stated, fails on "non-empty strings": an empty string in the
    payload's list is returned as it is. *)
Lemma empty_skill_string_returned :
  let d := [("overall_score", JInt 50); ("matching_skills", JList [JStr ""])] in
  exists a, Groq.normalize cpython_text d = Ok a /\ strengths a = [""].
Proof. eexists; split; reflexivity. Qed.

(** ** The search adapter *)

Lemma get_default_absent (d : dict) (k : string) (dflt : json) :
  has_key d k = false -> get_default d k dflt = dflt.
Proof.
  induction d as [ | [k' v] d IH ]; simpl; [ reflexivity | ].
  destruct (k' =? k)%string; simpl; [ discriminate | exact IH ].
Qed.

Lemma get_default_present (d : dict) (k : string) (dflt : json) :
  has_key d k = true -> get_default d k dflt = get d k.
Proof.
  unfold get. induction d as [ | [k' v] d IH ]; simpl; [ discriminate | ].
  destruct (k' =? k)%string; simpl; [ reflexivity | exact IH ].
Qed.

Lemma get_has_key (d : dict) (k : string) :
  get d k <> JNull -> has_key d k = true.
Proof.
  intros H. destruct (has_key d k) eqn:E; [ reflexivity | ].
  exfalso. apply H. unfold get. apply get_default_absent. exact E.
Qed.

(** The loop keeps exactly the [accepted] entries. *)
Lemma video_of_accepted (video_data : json) :
  accepted video_data = true <-> exists v, Serper.video_of video_data = Ok v.
Proof.
  destruct video_data as [ | b | z | s | l | d ];
    try (split; [ discriminate | intros [v H]; discriminate ]).
  unfold accepted, Serper.video_of, YouTubeVideo_init, link_field,
    validate_youtube_link.
  cbn [existsb].
  destruct (has_key d "title") eqn:Kt;
    [ rewrite (get_default_present _ _ _ Kt)
    | rewrite (get_default_absent _ _ _ Kt) ];
  (destruct (has_key d "channel") eqn:Kc;
    [ rewrite (get_default_present _ _ _ Kc)
    | rewrite (get_default_absent _ _ _ Kc) ]);
  (destruct (has_key d "duration") eqn:Kd;
    [ rewrite (get_default_present _ _ _ Kd)
    | rewrite (get_default_absent _ _ _ Kd) ]);
  (destruct (has_key d "link") eqn:Kl;
    [ rewrite (get_default_present _ _ _ Kl)
    | rewrite (get_default_absent _ _ _ Kl) ]);
  cbn [negb orb andb];
  repeat match goal with
         | |- context [get d ?k] => destruct (get d k); cbn
         end;
  repeat match goal with
         | |- context [nonempty ?s] => destruct (nonempty s); cbn
         | |- context [contains ?a ?s] => destruct (contains a s); cbn
         end;
  split; intros H; try discriminate; try (destruct H; discriminate);
    try reflexivity; eauto.
Qed.

Lemma collect_filter (l : list json) :
  Serper.collect l = Serper.collect (filter accepted l)
  /\ List.length (Serper.collect l) = List.length (filter accepted l).
Proof.
  induction l as [ | e l [IH1 IH2] ]; simpl; [ split; reflexivity | ].
  destruct (accepted e) eqn:A.
  - apply video_of_accepted in A. destruct A as [v Hv].
    simpl. rewrite Hv. simpl. split; congruence.
  - destruct (Serper.video_of e) as [ v | x ] eqn:Hv; [ | split; assumption ].
    assert (accepted e = true) by (apply video_of_accepted; eauto). congruence.
Qed.

(** C10, as amended.  For a response with status 200 whose body holds a
    list under "videos", the call never fails: it returns the videos built
    from the first [num_results] entries, leaving out, silently, every
    entry that is not [accepted].  An entry is dropped when it is not an
    object, when it has no link, or when its link is a non-empty string
    holding neither "youtube.com" nor "youtu.be"; an entry that lacks only
    its title, channel or duration is kept, with "N/A" in their place. *)
Theorem malformed_entries_skipped
    (fault_text : fault -> string) (serper_num_results : Z)
    (query : string) (num_results : option Z)
    (results : dict) (l : list json) (text : string) :
  nonempty (strip query) = true ->
  get results "videos" = JList l ->
  let entries := slice_to (effective_num num_results serper_num_results) l in
  Serper.search_youtube_videos fault_text serper_num_results query num_results
    (Serper.Response 200 (Some (JDict results)) text)
  = Ok (Serper.collect entries)
  /\ Serper.collect entries = Serper.collect (filter accepted entries)
  /\ List.length (Serper.collect entries) = List.length (filter accepted entries)
  /\ (forall e, (forall d, e <> JDict d) -> accepted e = false)
  /\ (forall d, has_key d "link" = false -> accepted (JDict d) = false)
  /\ (forall d s, get d "link" = JStr s -> nonempty s = true ->
                  contains "youtube.com" s = false ->
                  contains "youtu.be" s = false -> accepted (JDict d) = false)
  /\ (forall d s c,
        has_key d "title" = false -> has_key d "duration" = false ->
        get d "imageUrl" = JNull ->
        get d "link" = JStr s -> link_field (JStr s) = Some s ->
        get d "channel" = JStr c ->
        Serper.video_of (JDict d)
        = Ok {| title := "N/A"; link := s; channel := c; duration := "N/A";
                thumbnail := None |}).
Proof.
  intros Hq Hv entries.
  assert (Hk : has_key results "videos" = true)
    by (apply get_has_key; rewrite Hv; discriminate).
  split; [ | split; [ apply collect_filter | split; [ apply collect_filter | ] ] ].
  - unfold Serper.search_youtube_videos.
    assert (Hn : nonempty query = true).
    { destruct query; [ discriminate | reflexivity ]. }
    rewrite Hn, Hq. cbn [negb orb].
    fold (effective_num num_results serper_num_results).
    unfold Serper.request. cbn [Z.eqb Pos.eqb negb].
    unfold Serper.has_videos, Serper.videos_slice. rewrite Hk, Hv. reflexivity.
  - repeat split.
    + intros e He. destruct e; try reflexivity. exfalso; eapply He; reflexivity.
    + intros d Hl. unfold accepted. rewrite Hl.
      rewrite !andb_false_r. reflexivity.
    + intros d s Hl Hs Ha Hb. unfold accepted, link_field, validate_youtube_link.
      rewrite Hl. cbn [str_field existsb]. rewrite Hs, Ha, Hb.
      rewrite !andb_false_r. reflexivity.
    + intros d s c Kt Kd Hi Hl Ha Hc.
      unfold Serper.video_of.
      rewrite (get_default_absent _ _ _ Kt), (get_default_absent _ _ _ Kd).
      rewrite (get_default_present d "link"), (get_default_present d "channel"), Hi, Hl, Hc
        by (apply get_has_key; congruence).
      unfold YouTubeVideo_init. rewrite Ha. reflexivity.
Qed.

Lemma malformed_entries_skipped_witness :
  Serper.search_youtube_videos cpython_text 5 "docker tutorial" (Some 3)
    (Serper.Response 200
       (Some (JDict [("videos",
                      JList [JDict [("title", JStr "Broken")];
                             JDict [("title", JStr "Docker in 100 seconds");
                                    ("link", JStr "https://youtu.be/abc");
                                    ("channel", JStr "Fireship")];
                             JStr "noise"])]))
       "")
  = Ok [ {| title := "Docker in 100 seconds"; link := "https://youtu.be/abc";
            channel := "Fireship"; duration := "N/A"; thumbnail := None |} ].
Proof.
  exact (proj1 (malformed_entries_skipped cpython_text 5 "docker tutorial" (Some 3)
                  [("videos",
                    JList [JDict [("title", JStr "Broken")];
                           JDict [("title", JStr "Docker in 100 seconds");
                                  ("link", JStr "https://youtu.be/abc");
                                  ("channel", JStr "Fireship")];
                           JStr "noise"])]
                  _ "" eq_refl eq_refl)).
Defined.

(** C10, as stated, fails on a missing required field: an entry without a
    title, which the specification calls malformed, is returned with the
    title "N/A". *)
Lemma untitled_entry_kept :
  let e := JDict [("link", JStr "https://youtube.com/watch?v=ok");
                  ("channel", JStr "Some channel")] in
  malformed_spec e = true
  /\ Serper.search_youtube_videos cpython_text 5 "docker tutorial" None
       (Serper.Response 200 (Some (JDict [("videos", JList [e])])) "")
     = Ok [ {| title := "N/A"; link := "https://youtube.com/watch?v=ok";
               channel := "Some channel"; duration := "N/A";
               thumbnail := None |} ].
Proof. split; reflexivity. Qed.

(** A status in the 2xx range other than 200 is an error for the code. *)
Example status_201_refused :
  Serper.search_youtube_videos cpython_text 5 "docker tutorial" None
    (Serper.Response 201 (Some (JDict [("videos", JList [])])) "")
  = Raise (SerperAPIError "Serper API error: 201 - Unknown error").
Proof. reflexivity. Qed.

(** C5 on the code: the link "https://notyoutube.com/x" holds the text
    "youtube.com", so the validator accepts it and the adapter returns both
    entries. *)
Example notyoutube_link_accepted :
  contains "youtube.com" "https://notyoutube.com/x" = true
  /\ Serper.search_youtube_videos cpython_text 5 "docker tutorial" None
       (Serper.Response 200
          (Some (JDict [("videos",
                   JList [JDict [("title", JStr "First");
                                 ("link", JStr "https://notyoutube.com/x");
                                 ("channel", JStr "A")];
                          JDict [("title", JStr "Second");
                                 ("link", JStr "https://youtube.com/watch?v=ok");
                                 ("channel", JStr "B")]])]))
          "")
     = Ok [ {| title := "First"; link := "https://notyoutube.com/x";
               channel := "A"; duration := "N/A"; thumbnail := None |};
            {| title := "Second"; link := "https://youtube.com/watch?v=ok";
               channel := "B"; duration := "N/A"; thumbnail := None |} ].
Proof. split; reflexivity. Qed.

(** ** Defaulting of the summary and the query *)

(** X1.  What the returned record holds: the summary trimmed, or the fallback
    sentence when fewer than 10 characters are left; the query as it came,
    not trimmed, or the fallback query when it has fewer than 3
    characters. *)
Lemma summary_query_defaulting
    (fault_text : fault -> string) (d : dict) (a : CVAnalysis) :
  Groq.normalize fault_text d = Ok a ->
  exists s q,
    Groq.summary_of d = JStr s /\ Groq.query_of d = JStr q
    /\ gaps_analysis a
       = (if (String.length (strip s) <? 10)%nat then gaps_fallback else strip s)
    /\ youtube_search_query a
       = (if (String.length q <? 3)%nat then query_fallback else q).
Proof.
  unfold Groq.normalize.
  destruct (Groq.convert d) as [ a' | x ] eqn:Hc; [ | discriminate ].
  intros H; injection H as ->.
  destruct (convert_trace d)
    as [ [f Hf] | [ [He _] | (o & s & e & dd & g & _ & Ss & Sq & _ & _ & _ & _ & Hg & Hcv) ] ];
    try congruence.
  rewrite Hcv in Hc. apply CVAnalysis_init_ok in Hc.
  destruct Hc as (_ & _ & _ & _ & _ & _ & Eg & (q' & Hq' & Eq)).
  cbn [converted_data arg_gaps_analysis arg_youtube_search_query] in Eg, Hq'.
  destruct (Groq.summary_of d) as [ | | | t | | ]; try discriminate.
  destruct (Groq.query_of d) as [ | | | q | | ]; try discriminate.
  exists t, q. repeat split.
  - rewrite Eg. unfold Groq.gaps_of in Hg. cbn [truthy strip_of bind] in Hg.
    unfold validate_gaps_analysis.
    destruct t as [ | c t ]; cbn [nonempty] in Hg.
    + injection Hg as <-. reflexivity.
    + destruct (nonempty (strip (String c t))) eqn:Nt; injection Hg as <-.
      * rewrite Nt. reflexivity.
      * revert Nt. destruct (strip (String c t)); [ reflexivity | discriminate ].
  - rewrite Eq. cbn [truthy] in Hq'. unfold validate_youtube_query.
    destruct q as [ | c q ]; cbn [nonempty] in Hq'; injection Hq' as <-; reflexivity.
Qed.

(** C8 on the code: the query of three spaces passes the emptiness guard's
    payload (the overall score is 50) and is returned as it is, while the
    summary of three spaces is replaced by the fallback sentence. *)
Example blank_query_survives :
  Groq.normalize cpython_text
    [("overall_score", JInt 50);
     ("skill_gap_analysis_summary", JStr "   ");
     ("youtube_search_query", JStr "   ")]
  = Ok {| overall_score := 50; skills_match := 0; experience_match := 0;
          education_match := 0;
          strengths := ["Not specified"]; missing_skills := ["Not specified"];
          gaps_analysis := gaps_fallback;
          youtube_search_query := "   " |}.
Proof. reflexivity. Qed.

(** ** The outer handler *)

Section OuterHandler.

Variable json_loads : string -> decoded.
Variable fault_text : fault -> string.
Variable model : string.

Lemma handle_other (A : Type) (e : exn) :
  (forall m, e <> GroqAPIError m) ->
  Groq.handle fault_text model (@Raise A e)
  = Raise (GroqAPIError (Groq.classify model (exn_str fault_text e))).
Proof.
  intros H. destruct e; try reflexivity. exfalso; eapply H; reflexivity.
Qed.

(** An error of the repository's own passes through unchanged. *)
Lemma handle_own (A : Type) (m : string) :
  Groq.handle fault_text model (@Raise A (GroqAPIError m)) = Raise (GroqAPIError m).
Proof. reflexivity. Qed.

(** A failure inside the conversion block never reaches the classifier:
    the block's own handler has already made it a [GroqAPIError]. *)
Lemma conversion_failure_wrapped (text : string) (d : dict) (e : exn) :
  Groq.recover_json json_loads model text = Ok (JDict d) ->
  Groq.convert d = Raise e ->
  Groq.analyze_cv json_loads fault_text model (Ok (Some text))
  = Raise (GroqAPIError (Groq.parse_failed_prefix ++ exn_str fault_text e)).
Proof.
  intros Hr Hc. unfold Groq.analyze_cv, Groq.analyze_reply. cbn [bind].
  rewrite Hr. cbn [bind Groq.keys_of]. unfold Groq.normalize. rewrite Hc.
  reflexivity.
Qed.

End OuterHandler.

(** C9, as amended.  A failure other than a [GroqAPIError] that reaches
    the outer handler of [analyze_cv] (it is raised outside the conversion
    block, whose own handler wraps every failure as "Failed to parse API
    response into valid format: ...") is re-raised as a [GroqAPIError]
    chosen by containment in the lower-cased message, the first of these
    that applies: "authentication", "api key" or "401" gives the
    invalid-key message; "rate limit" or "429" the rate-limit message;
    "timeout" the timed-out message; "model" together with "not found" the
    model-not-found message; otherwise "Analysis failed: " followed by the
    original message. *)
Theorem outer_failures_classified
    (json_loads : string -> decoded) (fault_text : fault -> string)
    (model : string) (e : exn) :
  (forall m, e <> GroqAPIError m) ->
  let original := exn_str fault_text e in
  let error_msg := lower original in
  let auth := contains "authentication" error_msg || contains "api key" error_msg
              || contains "401" error_msg in
  let rate := contains "rate limit" error_msg || contains "429" error_msg in
  let timed := contains "timeout" error_msg in
  let gone := contains "model" error_msg && contains "not found" error_msg in
  exists msg,
    Groq.analyze_cv json_loads fault_text model (Raise e) = Raise (GroqAPIError msg)
    /\ (auth = true ->
        msg = "Invalid API key. Please check your GROQ_API_KEY in .env file.")
    /\ (auth = false -> rate = true ->
        msg = "Rate limit exceeded. Please wait a moment and try again.")
    /\ (auth = false -> rate = false -> timed = true ->
        msg = "Request timed out. Please try again.")
    /\ (auth = false -> rate = false -> timed = false -> gone = true ->
        msg = "Model not found. Check GROQ_MODEL in .env file. Current: " ++ model)
    /\ (auth = false -> rate = false -> timed = false -> gone = false ->
        msg = "Analysis failed: " ++ original).
Proof.
  intros H original error_msg auth rate timed gone.
  exists (Groq.classify model original). split.
  - unfold Groq.analyze_cv. cbn [bind]. apply handle_other. exact H.
  - unfold Groq.classify.
    fold error_msg. fold auth. fold rate. fold timed. fold gone.
    repeat split; intros; repeat match goal with E : _ = _ |- _ => rewrite E end;
      reflexivity.
Qed.

Lemma outer_failures_classified_witness :
  exists msg,
    Groq.analyze_cv (loads_of []) cpython_text "llama-3.3-70b-versatile"
      (Raise (Fault (Foreign "Error code: 429 - Rate limit reached")))
    = Raise (GroqAPIError msg)
    /\ msg = "Rate limit exceeded. Please wait a moment and try again.".
Proof.
  destruct (outer_failures_classified (loads_of []) cpython_text
              "llama-3.3-70b-versatile"
              (Fault (Foreign "Error code: 429 - Rate limit reached")))
    as (msg & Hm & _ & Hr & _).
  - intros m; discriminate.
  - exists msg. split; [ exact Hm | ].
    apply Hr; reflexivity.
Defined.

(** The other failures that reach the outer handler: a reply without
    text, and a decoded document that is not an object. *)
Lemma reply_failures_classified
    (json_loads : string -> decoded) (fault_text : fault -> string)
    (model : string) :
  Groq.analyze_cv json_loads fault_text model (Ok None)
  = Raise (GroqAPIError (Groq.classify model (fault_text (NoLen JNull))))
  /\ (forall text v,
        Groq.recover_json json_loads model text = Ok v ->
        (forall d, v <> JDict d) ->
        Groq.analyze_cv json_loads fault_text model (Ok (Some text))
        = Raise (GroqAPIError
                   (Groq.classify model (fault_text (NoAttr v "keys"))))).
Proof.
  split; [ reflexivity | ].
  intros text v Hr Hv. unfold Groq.analyze_cv, Groq.analyze_reply. cbn [bind].
  rewrite Hr. cbn [bind].
  destruct v; try reflexivity. exfalso; eapply Hv; reflexivity.
Qed.

(** C9, as stated, fails for a failure raised inside the conversion block:
    [int("timeout")] raises a [ValueError] whose message holds "timeout",
    and [analyze_cv] raises the "Failed to parse" error, not the timed-out
    one. *)
Lemma conversion_failure_not_classified :
  let payload := [("overall_score", JStr "timeout")] in
  let text := "{" ++ quoted "overall_score" ++ ": " ++ quoted "timeout" ++ "}" in
  let loads := loads_of [(text, JDict payload)] in
  let message := cpython_text (BadInt (JStr "timeout")) in
  Groq.convert payload = Raise (Fault (BadInt (JStr "timeout")))
  /\ message = "invalid literal for int() with base 10: 'timeout'"
  /\ Groq.classify "llama-3.3-70b-versatile" message
     = "Request timed out. Please try again."
  /\ Groq.analyze_cv loads cpython_text "llama-3.3-70b-versatile" (Ok (Some text))
     = Raise (GroqAPIError
                "Failed to parse API response into valid format: invalid literal for int() with base 10: 'timeout'")
  /\ Groq.analyze_cv loads cpython_text "llama-3.3-70b-versatile" (Ok (Some text))
     <> Raise (GroqAPIError
                 (Groq.classify "llama-3.3-70b-versatile" message)).
Proof.
  repeat split; try reflexivity.
  vm_compute. discriminate.
Qed.

(** ** Strings: trimming, prefixes and suffixes *)

Section StringFacts.

Lemma append_nil_r (s : string) : s ++ "" = s.
Proof. induction s as [ | c s IH ]; simpl; [ | rewrite IH ]; reflexivity. Qed.

Lemma append_assoc (a b c : string) : (a ++ b) ++ c = a ++ b ++ c.
Proof. induction a as [ | x a IH ]; simpl; [ | rewrite IH ]; reflexivity. Qed.

Lemma length_append (a b : string) :
  String.length (a ++ b) = (String.length a + String.length b)%nat.
Proof. induction a as [ | x a IH ]; simpl; [ | rewrite IH ]; reflexivity. Qed.

Lemma all_space_append (a b : string) :
  all_space (a ++ b) = all_space a && all_space b.
Proof.
  induction a as [ | x a IH ]; simpl; [ reflexivity | ].
  rewrite IH. apply andb_assoc.
Qed.

Lemma lstrip_spaces (ws s : string) :
  all_space ws = true -> lstrip (ws ++ s) = lstrip s.
Proof.
  induction ws as [ | c ws IH ]; simpl; [ reflexivity | ].
  intros H. apply andb_true_iff in H. destruct H as [-> H]. exact (IH H).
Qed.

Lemma lstrip_split (s : string) :
  exists ws, all_space ws = true /\ s = ws ++ lstrip s.
Proof.
  induction s as [ | c s (ws & Hw & Hs) ]; simpl.
  - exists ""; split; reflexivity.
  - destruct (isspace c) eqn:Hc.
    + exists (String c ws); simpl. rewrite Hc, Hw. split; [ reflexivity | ].
      f_equal. exact Hs.
    + exists ""; split; reflexivity.
Qed.

Lemma rstrip_spaces (s ws : string) :
  all_space ws = true -> rstrip (s ++ ws) = rstrip s.
Proof.
  intros H. induction s as [ | c s IH ]; simpl.
  - induction ws as [ | x ws IHw ]; simpl; [ reflexivity | ].
    simpl in H. apply andb_true_iff in H. destruct H as [Hx H].
    rewrite (IHw H), Hx. reflexivity.
  - rewrite IH. reflexivity.
Qed.

(** Trimming on the right leaves a text alone when what ends it does not
    trim to nothing. *)
Lemma rstrip_kept (s t : string) :
  rstrip t = t -> t <> "" -> rstrip (s ++ t) = s ++ t.
Proof.
  intros Ht Hn. induction s as [ | c s IH ]; simpl; [ exact Ht | ].
  rewrite IH. destruct (s ++ t) eqn:E; [ | reflexivity ].
  destruct s; simpl in E; [ contradiction | discriminate ].
Qed.

Lemma rstrip_split (s : string) :
  exists ws, all_space ws = true /\ s = rstrip s ++ ws.
Proof.
  induction s as [ | c s (ws & Hw & Hs) ]; simpl.
  - exists ""; split; reflexivity.
  - destruct (rstrip s) as [ | x r ] eqn:Hr.
    + simpl in Hs. destruct (isspace c) eqn:Hc.
      * exists (String c ws); simpl. rewrite Hc, Hw. split; [ reflexivity | ].
        f_equal. exact Hs.
      * exists ws. split; [ exact Hw | ]. simpl. f_equal. exact Hs.
    + exists ws. split; [ exact Hw | ]. simpl. f_equal. exact Hs.
Qed.

(** A text between blanks trims to itself when it begins and ends with a
    character that is not a blank. *)
Lemma strip_core (a b body : string) (c1 c2 : ascii) :
  all_space a = true -> all_space b = true ->
  isspace c1 = false -> isspace c2 = false ->
  strip (a ++ String c1 (body ++ String c2 "") ++ b)
  = String c1 (body ++ String c2 "").
Proof.
  intros Ha Hb H1 H2. unfold strip.
  rewrite (lstrip_spaces _ _ Ha). cbn [append lstrip]. rewrite H1.
  change (String c1 ((body ++ String c2 "") ++ b))
    with (String c1 (body ++ String c2 "") ++ b).
  rewrite (rstrip_spaces _ _ Hb).
  change (String c1 (body ++ String c2 ""))
    with (String c1 body ++ String c2 "").
  apply rstrip_kept; [ simpl; rewrite H2; reflexivity | discriminate ].
Qed.

Lemma prefix_append (p s : string) : String.prefix p (p ++ s) = true.
Proof.
  induction p as [ | c p IH ]; simpl; [ destruct s; reflexivity | ].
  destruct (ascii_dec c c); [ exact IH | contradiction ].
Qed.

Lemma drop_append (p s : string) : drop (String.length p) (p ++ s) = s.
Proof. induction p as [ | c p IH ]; simpl; [ reflexivity | exact IH ]. Qed.

Lemma take_append (s p : string) : take (String.length s) (s ++ p) = s.
Proof.
  induction s as [ | c s IH ]; simpl; [ reflexivity | rewrite IH; reflexivity ].
Qed.

Lemma endswith_append (s p : string) : endswith (s ++ p) p = true.
Proof.
  induction s as [ | c s IH ]; simpl.
  - destruct p; simpl; rewrite ?String.eqb_refl, ?Ascii.eqb_refl; reflexivity.
  - rewrite IH. apply orb_true_r.
Qed.

Lemma drop_end_append (s p : string) :
  drop_end (String.length p) (s ++ p) = s.
Proof.
  unfold drop_end. rewrite length_append.
  replace (String.length s + String.length p - String.length p)%nat
    with (String.length s) by lia.
  apply take_append.
Qed.

(** A text that begins, after blanks, with [c] does not start with a
    prefix whose first character is another one that is not a blank. *)
Lemma prefix_after_blanks (a r p : string) (c x : ascii) :
  all_space a = true -> isspace x = false -> x <> c ->
  String.prefix (String x p) (a ++ String c r) = false.
Proof.
  intros Ha Hx Hc. destruct a as [ | y a ]; simpl.
  - destruct (ascii_dec x c); [ contradiction | reflexivity ].
  - destruct (ascii_dec x y) as [ <- | ]; [ | reflexivity ].
    simpl in Ha. rewrite Hx in Ha. discriminate.
Qed.

Lemma not_fence_suffix (x : string) :
  endswith (x ++ "}") "```" = false.
Proof.
  induction x as [ | c x IH ]; [ reflexivity | ].
  cbn [append endswith]. rewrite IH, orb_false_r.
  destruct x as [ | c1 [ | c2 [ | c3 x ] ] ]; cbn;
    repeat match goal with
           | |- context [(?a =? ?b)%char] => destruct (a =? b)%char; cbn
           end; try reflexivity.
Qed.

End StringFacts.

(** ** Text-to-JSON recovery *)

Section Recovery.

Variable json_loads : string -> decoded.
Variable model : string.

Lemma lacks_append (c : ascii) (a b : string) :
  lacks c (a ++ b) = lacks c a && lacks c b.
Proof.
  induction a as [ | x a IH ]; simpl; [ reflexivity | ].
  rewrite IH. apply andb_assoc.
Qed.

Lemma blanks_lack (c : ascii) (ws : string) :
  isspace c = false -> all_space ws = true -> lacks c ws = true.
Proof.
  intros Hc. induction ws as [ | x ws IH ]; simpl; [ reflexivity | ].
  intros H. apply andb_true_iff in H. destruct H as [Hx H].
  rewrite (IH H), andb_true_r.
  destruct (Ascii.eqb_spec x c) as [ -> | _ ]; [ congruence | reflexivity ].
Qed.

Lemma from_open_skip (pre r : string) :
  lacks "{" pre = true ->
  Groq.from_open (pre ++ String "{" r) = Some (String "{" r).
Proof.
  induction pre as [ | c pre IH ]; simpl; [ reflexivity | ].
  intros H. apply andb_true_iff in H. destruct H as [Hc H].
  apply negb_true_iff in Hc. rewrite Hc. exact (IH H).
Qed.

Lemma to_last_close_none (s : string) :
  lacks "}" s = true -> Groq.to_last_close s = None.
Proof.
  induction s as [ | c s IH ]; simpl; [ reflexivity | ].
  intros H. apply andb_true_iff in H. destruct H as [Hc H].
  apply negb_true_iff in Hc. rewrite (IH H), Hc. reflexivity.
Qed.

Lemma to_last_close_tail (x tail : string) :
  lacks "}" tail = true ->
  Groq.to_last_close (x ++ String "}" tail) = Some (x ++ "}").
Proof.
  intros H. induction x as [ | c x IH ]; cbn [append Groq.to_last_close].
  - rewrite (to_last_close_none _ H). reflexivity.
  - rewrite IH. reflexivity.
Qed.

(** The pattern finds the object text whatever surrounds it, as long as
    no brace stands before it or after it. *)
Lemma search_braces_core (pre body tail : string) :
  lacks "{" pre = true -> lacks "}" tail = true ->
  Groq.search_braces (pre ++ String "{" (body ++ "}") ++ tail)
  = Some (String "{" (body ++ "}")).
Proof.
  intros Hp Ht. unfold Groq.search_braces.
  cbn [append]. rewrite (from_open_skip _ _ Hp).
  rewrite append_assoc. cbn [append].
  change (String "{" (body ++ String "}" tail))
    with (String "{" body ++ String "}" tail).
  rewrite (to_last_close_tail _ _ Ht). reflexivity.
Qed.

Lemma strip_fences_plain (a b body : string) :
  all_space a = true -> all_space b = true ->
  Groq.strip_fences (a ++ String "{" (body ++ "}") ++ b)
  = String "{" (body ++ "}").
Proof.
  intros Ha Hb. unfold Groq.strip_fences.
  rewrite (strip_core a b body "{" "}" Ha Hb eq_refl eq_refl).
  cbn [startswith String.prefix]. cbn.
  change (String "{" (body ++ "}")) with (String "{" body ++ "}").
  rewrite not_fence_suffix.
  pose proof (strip_core "" "" body "{" "}" eq_refl eq_refl eq_refl eq_refl) as H.
  cbn [append] in H. rewrite append_nil_r in H. exact H.
Qed.

End Recovery.

Lemma strip_fences_fenced (opening a b body : string) :
  opening = "```json" \/ opening = "```" ->
  all_space a = true -> all_space b = true ->
  Groq.strip_fences (fenced opening a (String "{" (body ++ "}")) b)
  = String "{" (body ++ "}").
Proof.
  intros Ho Ha Hb. unfold fenced.
  set (core := String "{" (body ++ "}")).
  set (rest := a ++ core ++ b ++ "```").
  assert (E : rest = (a ++ core ++ b) ++ "```")
    by (unfold rest; rewrite !append_assoc; reflexivity).
  assert (Hs : strip (opening ++ rest) = opening ++ rest).
  { unfold strip.
    replace (lstrip (opening ++ rest)) with (opening ++ rest)
      by (destruct Ho as [ -> | -> ]; reflexivity).
    rewrite E, <- append_assoc.
    apply rstrip_kept; [ reflexivity | discriminate ]. }
  assert (Hn : forall x p, isspace x = false -> x <> "{"%char ->
                           String.prefix (String x p) rest = false).
  { intros x p Hx Hc. unfold rest, core. cbn [append].
    apply prefix_after_blanks; assumption. }
  assert (Hr : (if startswith rest "```" then drop 3 rest else rest) = rest).
  { unfold startswith. rewrite Hn; [ reflexivity | reflexivity | discriminate ]. }
  assert (Hend : strip (if endswith rest "```" then drop_end 3 rest else rest)
                 = core).
  { rewrite E, endswith_append.
    change 3%nat with (String.length "```"). rewrite drop_end_append.
    apply strip_core; auto. }
  unfold Groq.strip_fences. rewrite Hs.
  destruct Ho as [ -> | -> ].
  - change (startswith ("```json" ++ rest) "```json")
      with (String.prefix "```json" ("```json" ++ rest)).
    rewrite prefix_append.
    change 7%nat with (String.length "```json"). rewrite drop_append.
    rewrite Hr. exact Hend.
  - replace (startswith ("```" ++ rest) "```json") with false.
    + change (startswith ("```" ++ rest) "```")
        with (String.prefix "```" ("```" ++ rest)).
      rewrite prefix_append.
      change 3%nat with (String.length "```") at 1. rewrite drop_append.
      exact Hend.
    + symmetry. unfold startswith. cbn [append String.prefix].
      cbn. apply Hn; [ reflexivity | discriminate ].
Qed.

(** C6.  Let [t] be the text of a JSON object: trimmed, it opens with a
    brace and closes with one.  Wrapped between an opening fence
    (```json or ```) and a closing fence, with any blank text around it,
    it is cleaned to the same text as [t] alone, the pattern search finds
    the same span in both, and so the recovery gives the same outcome for
    both: the decoded object when [json.loads] accepts the text. *)
Theorem fence_stripping_recovers_same
    (json_loads : string -> decoded) (model : string)
    (opening ws1 t ws2 body : string) :
  opening = "```json" \/ opening = "```" ->
  all_space ws1 = true -> all_space ws2 = true ->
  strip t = String "{" (body ++ "}") ->
  Groq.strip_fences (fenced opening ws1 t ws2) = Groq.strip_fences t
  /\ Groq.strip_fences t = strip t
  /\ Groq.recover_json json_loads model (fenced opening ws1 t ws2)
     = Groq.recover_json json_loads model t
  /\ (forall v, json_loads (strip t) = Decoded v ->
                Groq.recover_json json_loads model (fenced opening ws1 t ws2) = Ok v).
Proof.
  intros Ho H1 H2 Ht.
  destruct (lstrip_split t) as (wl & Hwl & El).
  destruct (rstrip_split (lstrip t)) as (wr & Hwr & Er).
  fold (strip t) in Er. rewrite Er in El. rewrite Ht in El.
  set (core := String "{" (body ++ "}")) in *.
  assert (Ef : fenced opening ws1 t ws2
               = fenced opening (ws1 ++ wl) core (wr ++ ws2)).
  { unfold fenced. rewrite El, !append_assoc. reflexivity. }
  assert (Sa : all_space (ws1 ++ wl) = true)
    by (rewrite all_space_append, H1, Hwl; reflexivity).
  assert (Sb : all_space (wr ++ ws2) = true)
    by (rewrite all_space_append, Hwr, H2; reflexivity).
  assert (Cf : Groq.strip_fences (fenced opening ws1 t ws2) = core).
  { rewrite Ef. apply strip_fences_fenced; assumption. }
  assert (Ct : Groq.strip_fences t = core).
  { rewrite El. apply strip_fences_plain; assumption. }
  assert (Bf : Groq.search_braces (fenced opening ws1 t ws2) = Some core).
  { rewrite Ef. unfold fenced.
    rewrite <- (append_assoc opening). unfold core.
    apply search_braces_core.
    - rewrite lacks_append, (blanks_lack "{" _ eq_refl Sa), andb_true_r.
      destruct Ho as [ -> | -> ]; reflexivity.
    - rewrite lacks_append, (blanks_lack "}" _ eq_refl Sb). reflexivity. }
  assert (Bt : Groq.search_braces t = Some core).
  { rewrite El. apply search_braces_core; apply blanks_lack; auto. }
  rewrite Cf, Ct, Ht. fold core.
  repeat split.
  - unfold Groq.recover_json. rewrite Cf, Ct, Bf, Bt. reflexivity.
  - intros v Hv. unfold Groq.recover_json. rewrite Cf, Hv. reflexivity.
Qed.

Lemma fence_stripping_recovers_same_witness :
  let t := "{" ++ quoted "overall_score" ++ ": 68}" in
  let loads := loads_of [(t, JDict [("overall_score", JInt 68)])] in
  Groq.recover_json loads "llama-3.3-70b-versatile"
    (fenced "```json" newline t newline)
  = Groq.recover_json loads "llama-3.3-70b-versatile" t.
Proof.
  cbv zeta.
  refine (proj1 (proj2 (proj2
    (fence_stripping_recovers_same
       (loads_of [("{" ++ quoted "overall_score" ++ ": 68}",
                   JDict [("overall_score", JInt 68)])])
       "llama-3.3-70b-versatile" "```json" newline
       ("{" ++ quoted "overall_score" ++ ": 68}") newline
       (quoted "overall_score" ++ ": 68")
       (or_introl eq_refl) eq_refl eq_refl eq_refl)))).
Defined.

(** The recovery on a text fenced without a language tag. *)
Example fence_stripping_sample :
  let t := "{" ++ quoted "overall_score" ++ ": 68}" in
  Groq.recover_json (loads_of [(t, JDict [("overall_score", JInt 68)])])
    "llama-3.3-70b-versatile" (fenced "```" "" t newline)
  = Ok (JDict [("overall_score", JInt 68)]).
Proof. reflexivity. Qed.

Lemma summary_query_defaulting_witness :
  exists s q,
    Groq.summary_of [("overall_score", JInt 50); ("Summary", JStr " short ")]
    = JStr s
    /\ Groq.query_of [("overall_score", JInt 50); ("Summary", JStr " short ")]
       = JStr q
    /\ gaps_fallback
       = (if (String.length (strip s) <? 10)%nat then gaps_fallback else strip s)
    /\ query_fallback
       = (if (String.length q <? 3)%nat then query_fallback else q).
Proof.
  exact (summary_query_defaulting cpython_text
           [("overall_score", JInt 50); ("Summary", JStr " short ")]
           {| overall_score := 50; skills_match := 0; experience_match := 0;
              education_match := 0;
              strengths := ["Not specified"]; missing_skills := ["Not specified"];
              gaps_analysis := gaps_fallback;
              youtube_search_query := query_fallback |}
           eq_refl).
Defined.

(** * Further properties *)

(** ** Strings: blank texts, lengths, containment *)

Section MoreStringFacts.

Lemma lstrip_blank (s : string) : all_space s = true -> lstrip s = "".
Proof.
  induction s as [ | c s IH ]; simpl; [ reflexivity | ].
  intros H. apply andb_true_iff in H. destruct H as [-> H]. exact (IH H).
Qed.

Lemma lstrip_head (s : string) (c : ascii) (r : string) :
  lstrip s = String c r -> isspace c = false.
Proof.
  induction s as [ | x s IH ]; simpl; [ discriminate | ].
  destruct (isspace x) eqn:Hx; [ exact IH | ].
  intros H; injection H as <- _. exact Hx.
Qed.

Lemma rstrip_blank_iff (s : string) : rstrip s = "" <-> all_space s = true.
Proof.
  induction s as [ | c s IH ]; simpl; [ split; reflexivity | ].
  destruct (rstrip s) as [ | x r ].
  - destruct (isspace c); simpl.
    + split; [ intros _; apply IH; reflexivity | reflexivity ].
    + split; discriminate.
  - split; [ discriminate | ].
    intros H. apply andb_true_iff in H. destruct H as [_ H].
    apply IH in H. discriminate.
Qed.

(** A text trims to nothing exactly when it is made of blanks. *)
Lemma strip_blank_iff (s : string) :
  nonempty (strip s) = false <-> all_space s = true.
Proof.
  unfold strip. split.
  - intros H. assert (E : rstrip (lstrip s) = "")
      by (destruct (rstrip (lstrip s)); [ reflexivity | discriminate ]).
    apply rstrip_blank_iff in E.
    destruct (lstrip_split s) as (ws & Hw & Hs).
    rewrite Hs, all_space_append, Hw, E. reflexivity.
  - intros H. rewrite (lstrip_blank _ H). reflexivity.
Qed.

Lemma length_lstrip (s : string) : (String.length (lstrip s) <= String.length s)%nat.
Proof.
  induction s as [ | c s IH ]; simpl; [ lia | ].
  destruct (isspace c); simpl; lia.
Qed.

Lemma length_rstrip (s : string) : (String.length (rstrip s) <= String.length s)%nat.
Proof.
  induction s as [ | c s IH ]; simpl; [ lia | ].
  destruct (rstrip s); [ destruct (isspace c) | ]; simpl in *; lia.
Qed.

Lemma length_strip (s : string) : (String.length (strip s) <= String.length s)%nat.
Proof.
  unfold strip. pose proof (length_rstrip (lstrip s)). pose proof (length_lstrip s). lia.
Qed.

Lemma rstrip_idempotent (s : string) : rstrip (rstrip s) = rstrip s.
Proof.
  induction s as [ | c s IH ]; simpl; [ reflexivity | ].
  destruct (rstrip s) as [ | x r ] eqn:E.
  - destruct (isspace c) eqn:Hc; simpl; [ reflexivity | rewrite Hc; reflexivity ].
  - change (rstrip (String c (String x r)))
      with (match rstrip (String x r) with
            | "" => if isspace c then "" else String c ""
            | r' => String c r'
            end).
    rewrite IH. reflexivity.
Qed.

Lemma rstrip_keeps_head (c : ascii) (r : string) :
  isspace c = false -> exists r', rstrip (String c r) = String c r'.
Proof.
  intros Hc. simpl. destruct (rstrip r); [ rewrite Hc | ]; eauto.
Qed.

Lemma strip_idempotent (s : string) : strip (strip s) = strip s.
Proof.
  unfold strip. destruct (lstrip s) as [ | c r ] eqn:E; [ reflexivity | ].
  pose proof (lstrip_head _ _ _ E) as Hc.
  destruct (rstrip_keeps_head c r Hc) as [r' Hr]. rewrite Hr.
  cbn [lstrip]. rewrite Hc, <- Hr. apply rstrip_idempotent.
Qed.

Lemma prefix_split (p s : string) :
  String.prefix p s = true <-> exists v, s = p ++ v.
Proof.
  revert s. induction p as [ | c p IH ]; intros s.
  - split; [ intros _; exists s; reflexivity | destruct s; reflexivity ].
  - destruct s as [ | x s ]; simpl;
      [ split; [ discriminate | intros [v H]; discriminate ] | ].
    destruct (ascii_dec c x) as [ -> | Hn ].
    + split.
      * intros H. apply IH in H. destruct H as [v ->]. exists v. reflexivity.
      * intros [v H]. injection H as H. apply IH. exists v. exact H.
    + split; [ discriminate | intros [v H]; injection H as H _; congruence ].
Qed.

Lemma contains_split (p s : string) :
  contains p s = true <-> exists u v, s = u ++ p ++ v.
Proof.
  induction s as [ | x s IH ]; cbn [contains].
  - rewrite orb_false_r, prefix_split. split.
    + intros [v H]. exists "", v. exact H.
    + intros (u & v & H). destruct u; [ exists v; exact H | discriminate ].
  - rewrite orb_true_iff, prefix_split, IH. split.
    + intros [ [v H] | (u & v & H) ].
      * exists "", v. exact H.
      * exists (String x u), v. rewrite H. reflexivity.
    + intros (u & v & H). destruct u as [ | y u ].
      * left. exists v. exact H.
      * right. injection H as _ H. exists u, v. exact H.
Qed.

Lemma contains_append_l (p a b : string) :
  contains p a = true -> contains p (a ++ b) = true.
Proof.
  rewrite !contains_split. intros (u & v & ->).
  exists u, (v ++ b). rewrite !append_assoc. reflexivity.
Qed.

Lemma contains_append_r (p a b : string) :
  contains p b = true -> contains p (a ++ b) = true.
Proof.
  rewrite !contains_split. intros (u & v & ->).
  exists (a ++ u), v. rewrite !append_assoc. reflexivity.
Qed.

Lemma lower_append (a b : string) : lower (a ++ b) = lower a ++ lower b.
Proof. induction a as [ | c a IH ]; simpl; [ | rewrite IH ]; reflexivity. Qed.

Lemma lower_char_idempotent (c : ascii) : lower_char (lower_char c) = lower_char c.
Proof.
  unfold lower_char.
  destruct ((65 <=? nat_of_ascii c)%nat && (nat_of_ascii c <=? 90)%nat) eqn:E.
  - apply andb_true_iff in E. destruct E as [E1 E2].
    apply Nat.leb_le in E1, E2.
    rewrite nat_ascii_embedding by lia.
    replace ((65 <=? nat_of_ascii c + 32)%nat && (nat_of_ascii c + 32 <=? 90)%nat)
      with false; [ reflexivity | ].
    symmetry. apply andb_false_iff. right. apply Nat.leb_gt. lia.
  - rewrite E. reflexivity.
Qed.

Lemma lower_idempotent (s : string) : lower (lower s) = lower s.
Proof.
  induction s as [ | c s IH ]; simpl; [ reflexivity | ].
  rewrite lower_char_idempotent, IH. reflexivity.
Qed.

Lemma filter_length_le {A : Type} (f g : A -> bool) (l : list A) :
  (forall x, f x = true -> g x = true) ->
  (List.length (filter f l) <= List.length (filter g l))%nat.
Proof.
  intros H. induction l as [ | x l IH ]; simpl; [ lia | ].
  destruct (f x) eqn:Fx.
  - rewrite (H x Fx). simpl. lia.
  - destruct (g x); simpl; lia.
Qed.

End MoreStringFacts.

(** ** The input validators *)

Lemma blank_test (text : string) :
  negb (nonempty text) || negb (nonempty (strip text)) = all_space text.
Proof.
  destruct text as [ | c r ]; [ reflexivity | ].
  cbn [nonempty negb orb].
  destruct (nonempty (strip (String c r))) eqn:E; cbn [negb].
  - destruct (all_space (String c r)) eqn:A; [ | reflexivity ].
    apply strip_blank_iff in A. congruence.
  - symmetry. apply strip_blank_iff. exact E.
Qed.

(** X2.  [validate_text_length] gives a message exactly when it rejects,
    and it accepts exactly the texts that are not blank and whose trimmed
    length lies between the two bounds; a blank text is rejected even
    when the lower bound is 0 or less. *)
Theorem text_length_verdict (text : string) (min_length max_length : Z) :
  let r := Validators.validate_text_length text min_length max_length in
  (fst r = true <-> snd r = None)
  /\ (fst r = true <->
      all_space text = false
      /\ min_length <= Z.of_nat (String.length (strip text)) <= max_length).
Proof.
  unfold Validators.validate_text_length. rewrite blank_test.
  destruct (all_space text); cbn [fst snd].
  - split; split; try discriminate. intros [H _]; discriminate.
  - destruct (Z.ltb_spec (Z.of_nat (String.length (strip text))) min_length);
      cbn [fst snd].
    + split; split; try discriminate. intros [_ H']; lia.
    + destruct (Z.ltb_spec max_length (Z.of_nat (String.length (strip text))));
        cbn [fst snd].
      * split; split; try discriminate. intros [_ H']; lia.
      * split; split; auto; intros _; split; solve [ reflexivity | lia ].
Qed.

Lemma keyword_count_grows (keywords : list string) (before text after : string) :
  (Validators.keyword_count keywords (lower text)
   <= Validators.keyword_count keywords (lower (before ++ text ++ after)))%nat.
Proof.
  unfold Validators.keyword_count. apply filter_length_le.
  intros k Hk. rewrite !lower_append.
  apply contains_append_r, contains_append_l. exact Hk.
Qed.

(** X3.  The two content checks never block: their verdict is always
    true.  The warning is advisory and only ever goes away as text is
    added: a text that gets no warning gets none with any text put before
    or after it.  Letter case plays no part. *)
Theorem content_checks_advisory (text before after : string) :
  fst (Validators.validate_cv_content text) = true
  /\ fst (Validators.validate_job_description text) = true
  /\ (snd (Validators.validate_cv_content text) = None ->
      snd (Validators.validate_cv_content (before ++ text ++ after)) = None)
  /\ (snd (Validators.validate_job_description text) = None ->
      snd (Validators.validate_job_description (before ++ text ++ after)) = None)
  /\ Validators.validate_cv_content (lower text)
     = Validators.validate_cv_content text
  /\ Validators.validate_job_description (lower text)
     = Validators.validate_job_description text.
Proof.
  unfold Validators.validate_cv_content, Validators.validate_job_description.
  rewrite !lower_idempotent.
  pose proof (keyword_count_grows Validators.cv_keywords before text after) as Hc.
  pose proof (keyword_count_grows Validators.jd_keywords before text after) as Hj.
  repeat split.
  - destruct (_ <? 2)%nat; reflexivity.
  - destruct (_ <? 2)%nat; reflexivity.
  - destruct (Nat.ltb_spec (Validators.keyword_count Validators.cv_keywords (lower text)) 2);
      cbn [snd]; [ discriminate | intros _ ].
    destruct (Nat.ltb_spec
                (Validators.keyword_count Validators.cv_keywords
                   (lower (before ++ text ++ after))) 2); [ lia | reflexivity ].
  - destruct (Nat.ltb_spec (Validators.keyword_count Validators.jd_keywords (lower text)) 2);
      cbn [snd]; [ discriminate | intros _ ].
    destruct (Nat.ltb_spec
                (Validators.keyword_count Validators.jd_keywords
                   (lower (before ++ text ++ after))) 2); [ lia | reflexivity ].
Qed.

(** ** The request model *)

(** X4.  [AnalysisRequest] is built exactly when both texts, once trimmed,
    have at least 50 characters (the [min_length] of the field adds
    nothing to the validator), and it then holds the two texts trimmed. *)
Theorem analysis_request_accepts (cv jd : string) :
  ((50 <= String.length (strip cv))%nat /\ (50 <= String.length (strip jd))%nat ->
   Requests.AnalysisRequest_init cv jd
   = Ok {| Requests.cv_text := strip cv; Requests.job_description := strip jd |})
  /\ (forall r, Requests.AnalysisRequest_init cv jd = Ok r ->
        (50 <= String.length (strip cv))%nat
        /\ (50 <= String.length (strip jd))%nat
        /\ r = {| Requests.cv_text := strip cv;
                  Requests.job_description := strip jd |}
        /\ strip (Requests.cv_text r) = Requests.cv_text r
        /\ strip (Requests.job_description r) = Requests.job_description r).
Proof.
  assert (F : forall v, Requests.text_field v
                        = if (String.length (strip v) <? 50)%nat
                          then None else Some (strip v)).
  { intros v. unfold Requests.text_field, Requests.validate_text_content.
    destruct (Nat.ltb_spec (String.length v) 50); [ | reflexivity ].
    pose proof (length_strip v).
    destruct (Nat.ltb_spec (String.length (strip v)) 50); [ reflexivity | lia ]. }
  unfold Requests.AnalysisRequest_init. rewrite !F.
  destruct (Nat.ltb_spec (String.length (strip cv)) 50);
    destruct (Nat.ltb_spec (String.length (strip jd)) 50); split;
    try (intros [? ?]; lia); try (intros r; discriminate).
  - reflexivity.
  - intros r E. injection E as <-.
    repeat split; try assumption; apply strip_idempotent.
Qed.

(** ** The prompt *)

Lemma length_take (n : nat) (s : string) :
  String.length (take n s) = Nat.min n (String.length s).
Proof.
  revert n; induction s as [ | c s IH ]; intros [ | n ]; simpl; try reflexivity.
  rewrite IH. reflexivity.
Qed.

Lemma take_take_append (n : nat) (s x : string) :
  (n <= String.length s)%nat -> take n (take n s ++ x) = take n s.
Proof.
  revert n; induction s as [ | c s IH ]; intros [ | n ] H; simpl in *;
    try reflexivity; try lia.
  rewrite IH by lia. reflexivity.
Qed.

Lemma length_truncate (limit : nat) (text : string) :
  (String.length (Prompt.truncate limit text)
   <= Nat.min (String.length text) limit + 3)%nat.
Proof.
  unfold Prompt.truncate.
  destruct (Nat.ltb_spec limit (String.length text)).
  - rewrite length_append, length_take. simpl. lia.
  - lia.
Qed.

(** X5.  Whatever the CV and the job description, the prompt has at most
    2803 + 1803 characters more than its fixed text; an input within its
    limit (2800, 1800) is embedded as it is, a longer one as its first
    characters up to the limit followed by "..."; truncating twice is
    truncating once. *)
Theorem prompt_inputs_bounded (head middle tail cv_text job_description : string) :
  (String.length (Prompt._build_analysis_prompt head middle tail cv_text job_description)
   <= String.length head + String.length middle + String.length tail
      + 2803 + 1803)%nat
  /\ ((String.length cv_text <= 2800)%nat ->
      (String.length job_description <= 1800)%nat ->
      Prompt._build_analysis_prompt head middle tail cv_text job_description
      = head ++ cv_text ++ middle ++ job_description ++ tail)
  /\ (forall limit text,
        take limit (Prompt.truncate limit text) = take limit text
        /\ Prompt.truncate limit (Prompt.truncate limit text)
           = Prompt.truncate limit text).
Proof.
  unfold Prompt._build_analysis_prompt. split; [ | split ].
  - rewrite !length_append.
    pose proof (length_truncate Prompt.max_cv_length cv_text).
    pose proof (length_truncate Prompt.max_jd_length job_description).
    unfold Prompt.max_cv_length, Prompt.max_jd_length in *. lia.
  - intros Hc Hj. unfold Prompt.truncate, Prompt.max_cv_length, Prompt.max_jd_length.
    destruct (Nat.ltb_spec 2800 (String.length cv_text)); [ lia | ].
    destruct (Nat.ltb_spec 1800 (String.length job_description)); [ lia | ].
    reflexivity.
  - intros limit text. unfold Prompt.truncate.
    destruct (Nat.ltb_spec limit (String.length text)) as [ L | L ].
    + rewrite (take_take_append limit text "...") by lia.
      split; [ reflexivity | ].
      rewrite length_append, length_take.
      destruct (Nat.ltb_spec limit (Nat.min limit (String.length text)
                                    + String.length "...")) as [ _ | K ];
        [ reflexivity | simpl in K; lia ].
    + split; [ reflexivity | ].
      destruct (Nat.ltb_spec limit (String.length text)); [ lia | reflexivity ].
Qed.

(** ** Splitting *)

Section Splitting.

Variable sep : string.

Lemma split_go_nonempty (skip : nat) (cur s : string) :
  split_go sep skip cur s <> [].
Proof.
  revert skip cur. induction s as [ | c s IH ]; intros skip cur; cbn [split_go];
    [ discriminate | ].
  destruct skip as [ | k ]; [ | apply IH ].
  destruct (String.prefix sep (String c s)); [ discriminate | apply IH ].
Qed.

Lemma split_go_skip (x cur b : string) :
  split_go sep (String.length x) cur (x ++ b) = split_go sep 0 cur b.
Proof. induction x as [ | c x IH ]; simpl; [ reflexivity | exact IH ]. Qed.

(** Without an occurrence of the separator there is one piece. *)
Lemma split_go_none (cur s : string) :
  contains sep s = false -> split_go sep 0 cur s = [cur ++ s].
Proof.
  revert cur. induction s as [ | c s IH ]; intros cur H.
  - simpl. rewrite append_nil_r. reflexivity.
  - cbn [contains] in H. apply orb_false_iff in H. destruct H as [Hp Hc].
    cbn [split_go]. rewrite Hp, (IH _ Hc), append_assoc. reflexivity.
Qed.

Lemma prefix_long (p u v : string) :
  (String.length p <= String.length u)%nat ->
  String.prefix p (u ++ v) = String.prefix p u.
Proof.
  revert u. induction p as [ | c p IH ]; intros u H.
  - destruct u; destruct v; reflexivity.
  - destruct u as [ | x u ]; simpl in *; [ lia | ].
    destruct (ascii_dec c x); [ apply IH; lia | reflexivity ].
Qed.

Lemma take_drop (n : nat) (s : string) : take n s ++ drop n s = s.
Proof.
  revert n; induction s as [ | c s IH ]; intros [ | n ]; simpl; try reflexivity.
  rewrite IH. reflexivity.
Qed.

Lemma length_take_le (n : nat) (s : string) :
  (n <= String.length s)%nat -> String.length (take n s) = n.
Proof. intros H. rewrite length_take. lia. Qed.

(** The first piece ends at the first occurrence of the separator: when
    none begins inside [a], the text [a ++ sep ++ b] splits into [a] and
    the pieces of [b]. *)
Lemma split_go_first (a b cur : string) :
  sep <> "" ->
  contains sep (a ++ take (String.length sep - 1) sep) = false ->
  split_go sep 0 cur (a ++ sep ++ b) = (cur ++ a) :: split_go sep 0 "" b.
Proof.
  intros Hn. revert cur. induction a as [ | x a IH ]; intros cur H.
  - destruct sep as [ | c0 sep' ] eqn:E; [ contradiction | ].
    rewrite append_nil_r. cbn [append split_go].
    change (String c0 (sep' ++ b)) with (String c0 sep' ++ b).
    rewrite prefix_append. f_equal.
    replace (String.length (String c0 sep') - 1)%nat with (String.length sep')
      by (simpl; lia).
    rewrite <- E. apply split_go_skip.
  - cbn [append contains] in H. apply orb_false_iff in H. destruct H as [Hp Hc].
    cbn [append split_go].
    assert (P : String.prefix sep (String x (a ++ sep ++ b)) = false).
    { rewrite <- (take_drop (String.length sep - 1) sep) at 2.
      rewrite append_assoc, <- (append_assoc a).
      change (String x ((a ++ take (String.length sep - 1) sep)
                        ++ drop (String.length sep - 1) sep ++ b))
        with (String x (a ++ take (String.length sep - 1) sep)
              ++ drop (String.length sep - 1) sep ++ b).
      rewrite prefix_long; [ exact Hp | ].
      simpl. rewrite length_append, length_take_le by lia. lia. }
    rewrite P, (IH _ Hc), append_assoc. reflexivity.
Qed.

(** With an occurrence of the separator there are at least two pieces. *)
Lemma split_go_two (cur s : string) :
  sep <> "" -> contains sep s = true ->
  exists a b rest, split_go sep 0 cur s = a :: b :: rest.
Proof.
  intros Hn. revert cur. induction s as [ | c s IH ]; intros cur H.
  - destruct sep; [ contradiction | discriminate ].
  - cbn [contains] in H. cbn [split_go].
    destruct (String.prefix sep (String c s)) eqn:P.
    + destruct (split_go sep (String.length sep - 1) "" s) as [ | b rest ] eqn:E;
        [ exfalso; eapply split_go_nonempty; eassumption | eauto ].
    + apply (IH _ H).
Qed.

End Splitting.

Lemma contains_suffix_pattern (a b s : string) :
  contains (a ++ b) s = true -> contains b s = true.
Proof.
  rewrite !contains_split. intros (u & v & ->).
  exists (u ++ a), v. rewrite !append_assoc. reflexivity.
Qed.

(** ** The video details *)

Lemma extract_id_succeeds (video_url : string) :
  exists r, Details.extract_id video_url = Some r
            /\ (contains "youtube.com/watch?v=" video_url = false ->
                contains "youtu.be/" video_url = false -> r = None).
Proof.
  unfold Details.extract_id, item, split.
  destruct (contains "youtube.com/watch?v=" video_url) eqn:W.
  - apply (contains_suffix_pattern "youtube.com/" "watch?v=") in W.
    destruct (split_go_two "watch?v=" "" video_url) as (a & b & rest & ->);
      [ discriminate | exact W | ].
    cbn [nth_error].
    destruct (split_go "&" 0 "" b) as [ | v l ] eqn:E;
      [ exfalso; eapply split_go_nonempty; eassumption | ].
    eexists; split; [ reflexivity | discriminate ].
  - destruct (contains "youtu.be/" video_url) eqn:S.
    + destruct (split_go_two "youtu.be/" "" video_url) as (a & b & rest & ->);
        [ discriminate | exact S | ].
      cbn [nth_error].
      destruct (split_go "?" 0 "" b) as [ | v l ] eqn:E;
        [ exfalso; eapply split_go_nonempty; eassumption | ].
      eexists; split; [ reflexivity | discriminate ].
    + eexists; split; reflexivity.
Qed.

(** X6.  [get_video_details] never fails with an index error: the two
    subscripts it takes are always in range.  It returns [None] for a URL
    that holds neither "youtube.com/watch?v=" nor "youtu.be/"; and what it
    returns otherwise has a non-empty video id, the URL it was given, and
    the embed URL "https://www.youtube.com/embed/<id>". *)
Theorem video_details_total (video_url : string) :
  exists r,
    Details.get_video_details video_url = Some r
    /\ (contains "youtube.com/watch?v=" video_url = false ->
        contains "youtu.be/" video_url = false -> r = None)
    /\ (forall v, r = Some v ->
          nonempty (Details.video_id v) = true
          /\ Details.url v = video_url
          /\ Details.embed_url v
             = "https://www.youtube.com/embed/" ++ Details.video_id v).
Proof.
  unfold Details.get_video_details.
  destruct (extract_id_succeeds video_url) as (r & -> & Hn).
  destruct r as [ v | ].
  - destruct (nonempty v) eqn:N.
    + eexists; split; [ reflexivity | ]. split.
      * intros H1 H2. specialize (Hn H1 H2). discriminate.
      * intros v' E. injection E as <-. cbn. auto.
    + eexists; split; [ reflexivity | ]. split; [ reflexivity | discriminate ].
  - eexists; split; [ reflexivity | ]. split; [ reflexivity | discriminate ].
Qed.

(** X7.  Round trip on a watch URL: when "watch?v=" occurs once in the
    URL, right after "youtube.com/", and is followed by a non-empty id
    without "&", then nothing or "&" and more parameters, the id comes
    back, with the URL and the embed URL built from it. *)
Theorem watch_url_details (base id rest : string) :
  contains "watch?v=" (base ++ "youtube.com/watch?v") = false ->
  contains "watch?v=" (id ++ rest) = false ->
  nonempty id = true ->
  contains "&" id = false ->
  rest = "" \/ (exists more, rest = "&" ++ more) ->
  Details.get_video_details (base ++ "youtube.com/watch?v=" ++ id ++ rest)
  = Some (Some {| Details.video_id := id;
                  Details.url := base ++ "youtube.com/watch?v=" ++ id ++ rest;
                  Details.embed_url := "https://www.youtube.com/embed/" ++ id |}).
Proof.
  intros Hb Hi Hid Ha Hr.
  unfold Details.get_video_details, Details.extract_id.
  assert (C : contains "youtube.com/watch?v="
                (base ++ "youtube.com/watch?v=" ++ id ++ rest) = true)
    by (apply contains_split; eauto).
  rewrite C.
  assert (S1 : split "watch?v=" (base ++ "youtube.com/watch?v=" ++ id ++ rest)
               = [base ++ "youtube.com/"; id ++ rest]).
  { unfold split.
    change (base ++ "youtube.com/watch?v=" ++ id ++ rest)
      with (base ++ "youtube.com/" ++ "watch?v=" ++ id ++ rest).
    rewrite <- (append_assoc base).
    rewrite split_go_first;
      [ | discriminate
        | cbn [String.length Nat.sub take]; rewrite append_assoc; exact Hb ].
    rewrite (split_go_none _ _ _ Hi). reflexivity. }
  rewrite S1.
  change (item [base ++ "youtube.com/"; id ++ rest] 1) with (Some (id ++ rest)).
  cbv iota beta.
  assert (S2 : item (split "&" (id ++ rest)) 0 = Some id).
  { unfold split. destruct Hr as [ -> | [more ->] ].
    - rewrite append_nil_r, (split_go_none _ _ _ Ha). reflexivity.
    - rewrite split_go_first;
        [ reflexivity | discriminate
          | cbn [String.length Nat.sub take]; rewrite append_nil_r; exact Ha ]. }
  rewrite S2, Hid. reflexivity.
Qed.

Lemma watch_url_details_witness :
  Details.get_video_details "https://www.youtube.com/watch?v=abc123&t=42s"
  = Some (Some {| Details.video_id := "abc123";
                  Details.url := "https://www.youtube.com/watch?v=abc123&t=42s";
                  Details.embed_url := "https://www.youtube.com/embed/abc123" |}).
Proof.
  exact (watch_url_details "https://www." "abc123" "&t=42s"
           eq_refl eq_refl eq_refl eq_refl
           (or_intror (ex_intro _ "t=42s" eq_refl))).
Defined.

(** X8.  Round trip on a short URL: when the URL holds no
    "youtube.com/watch?v=", and "youtu.be/" occurs once in it, followed by
    a non-empty id without "?", then nothing or "?" and parameters, the id
    comes back, with the URL and the embed URL built from it. *)
Theorem short_url_details (base id rest : string) :
  contains "youtube.com/watch?v=" (base ++ "youtu.be/" ++ id ++ rest) = false ->
  contains "youtu.be/" (base ++ "youtu.be") = false ->
  contains "youtu.be/" (id ++ rest) = false ->
  nonempty id = true ->
  contains "?" id = false ->
  rest = "" \/ (exists more, rest = "?" ++ more) ->
  Details.get_video_details (base ++ "youtu.be/" ++ id ++ rest)
  = Some (Some {| Details.video_id := id;
                  Details.url := base ++ "youtu.be/" ++ id ++ rest;
                  Details.embed_url := "https://www.youtube.com/embed/" ++ id |}).
Proof.
  intros Hw Hb Hi Hid Ha Hr.
  unfold Details.get_video_details, Details.extract_id. rewrite Hw.
  assert (C : contains "youtu.be/" (base ++ "youtu.be/" ++ id ++ rest) = true)
    by (apply contains_split; eauto).
  rewrite C.
  assert (S1 : split "youtu.be/" (base ++ "youtu.be/" ++ id ++ rest)
               = [base; id ++ rest]).
  { unfold split.
    rewrite split_go_first;
      [ | discriminate | cbn [String.length Nat.sub take]; exact Hb ].
    rewrite (split_go_none _ _ _ Hi). reflexivity. }
  rewrite S1.
  change (item [base; id ++ rest] 1) with (Some (id ++ rest)).
  cbv iota beta.
  assert (S2 : item (split "?" (id ++ rest)) 0 = Some id).
  { unfold split. destruct Hr as [ -> | [more ->] ].
    - rewrite append_nil_r, (split_go_none _ _ _ Ha). reflexivity.
    - rewrite split_go_first;
        [ reflexivity | discriminate
          | cbn [String.length Nat.sub take]; rewrite append_nil_r; exact Ha ]. }
  rewrite S2, Hid. reflexivity.
Qed.

Lemma short_url_details_witness :
  Details.get_video_details "https://youtu.be/xyz789?t=3"
  = Some (Some {| Details.video_id := "xyz789";
                  Details.url := "https://youtu.be/xyz789?t=3";
                  Details.embed_url := "https://www.youtube.com/embed/xyz789" |}).
Proof.
  exact (short_url_details "https://" "xyz789" "?t=3"
           eq_refl eq_refl eq_refl eq_refl eq_refl
           (or_intror (ex_intro _ "t=3" eq_refl))).
Defined.

(** ** Text extraction *)

Lemma text_content_readable (l : list Pdf.page) :
  Pdf.text_content (filter readable l) = Pdf.text_content l.
Proof.
  induction l as [ | p l IH ]; [ reflexivity | ].
  destruct p as [ t | m ]; cbn [filter readable Pdf.text_content].
  - destruct (nonempty t) eqn:N; cbn [Pdf.text_content]; [ rewrite N, IH | ];
      auto.
  - exact IH.
Qed.

Lemma text_content_none (l : list Pdf.page) :
  forallb (fun p => negb (readable p)) l = true -> Pdf.text_content l = [].
Proof.
  induction l as [ | p l IH ]; [ reflexivity | ].
  cbn [forallb]. intros H. apply andb_true_iff in H. destruct H as [Hp H].
  destruct p as [ t | m ]; cbn [Pdf.text_content readable] in *.
  - apply negb_true_iff in Hp. rewrite Hp. exact (IH H).
  - exact (IH H).
Qed.

(** X9.  What [extract_text] returns is the texts of the readable pages
    joined by newlines and trimmed; it is trimmed, has at least 50
    characters, comes from a document that [validate_pdf] accepts, and
    passes [validate_text_length] with the default lower bound of 50
    whenever it is within the upper bound. *)
Theorem extracted_text_trimmed (opened : Pdf.failure + Pdf.reader) (t : string) :
  Pdf.extract_text opened = Pdf.Extracted t ->
  strip t = t
  /\ (50 <= String.length t)%nat
  /\ (exists r l, opened = inr r /\ Pdf.pages r = inr l
                  /\ t = strip (join newline (Pdf.text_content l)))
  /\ Pdf.validate_pdf opened = true
  /\ (forall max_length,
        Z.of_nat (String.length t) <= max_length ->
        Validators.validate_text_length t 50 max_length = (true, None)).
Proof.
  unfold Pdf.extract_text, Pdf.validate_pdf.
  destruct opened as [ f | r ]; [ destruct f; discriminate | ].
  destruct (if Pdf.is_encrypted r then Pdf.decrypt r else None); [ discriminate | ].
  destruct (Pdf.pages r) as [ f | l ] eqn:P; [ destruct f; discriminate | ].
  set (full := join newline (Pdf.text_content l)).
  destruct (nonempty (strip full)) eqn:N; cbn [negb]; [ | discriminate ].
  destruct (Nat.ltb_spec (String.length (strip full)) 50) as [ | L ];
    [ discriminate | ].
  intros E; injection E as <-.
  split; [ apply strip_idempotent | ]. split; [ exact L | ].
  split; [ exists r, l; auto | ]. split.
  - destruct l as [ | p l ]; [ discriminate | reflexivity ].
  - intros max_length Hm.
    assert (A : all_space (strip full) = false).
    { destruct (all_space (strip full)) eqn:A; [ | reflexivity ].
      apply strip_blank_iff in A. rewrite strip_idempotent in A. congruence. }
    unfold Validators.validate_text_length.
    rewrite blank_test, A, strip_idempotent.
    destruct (Z.ltb_spec (Z.of_nat (String.length (strip full))) 50); [ lia | ].
    destruct (Z.ltb_spec max_length (Z.of_nat (String.length (strip full))));
      [ lia | reflexivity ].
Qed.

Lemma extracted_text_trimmed_witness :
  let body := "Senior engineer with ten years of Python and Go experience." in
  strip body = body /\ (50 <= String.length body)%nat.
Proof.
  pose proof (extracted_text_trimmed
                (inr {| Pdf.is_encrypted := false; Pdf.decrypt := None;
                        Pdf.pages := inr [Pdf.PageError "broken page";
                                          Pdf.PageText "  Senior engineer with ten years of Python and Go experience. "] |})
                "Senior engineer with ten years of Python and Go experience."
                eq_refl) as H.
  cbv zeta. split; apply H.
Defined.

(** X10.  A page whose extraction raises, or that gives no text, is
    skipped and changes nothing: the outcome is that of the document
    without these pages. *)
Theorem unreadable_pages_skipped
    (encrypted : bool) (decrypt : option string) (l : list Pdf.page) :
  Pdf.extract_text
    (inr {| Pdf.is_encrypted := encrypted; Pdf.decrypt := decrypt;
            Pdf.pages := inr l |})
  = Pdf.extract_text
      (inr {| Pdf.is_encrypted := encrypted; Pdf.decrypt := decrypt;
              Pdf.pages := inr (filter readable l) |}).
Proof.
  unfold Pdf.extract_text. cbn [Pdf.is_encrypted Pdf.decrypt Pdf.pages].
  rewrite text_content_readable. reflexivity.
Qed.

(** X11.  When no page of an opened document is readable, the caller gets
    the message "Failed to parse PDF: No text could be extracted from
    PDF": the error raised for the empty text is caught by the function's
    own last handler and wrapped. *)
Theorem no_readable_page_message (r : Pdf.reader) (l : list Pdf.page) :
  (Pdf.is_encrypted r = false \/ Pdf.decrypt r = None) ->
  Pdf.pages r = inr l ->
  forallb (fun p => negb (readable p)) l = true ->
  Pdf.extract_text (inr r)
  = Pdf.PDFParseError "Failed to parse PDF: No text could be extracted from PDF".
Proof.
  intros Hd Hp Hl. unfold Pdf.extract_text.
  replace (if Pdf.is_encrypted r then Pdf.decrypt r else None) with (@None string)
    by (destruct Hd as [ -> | -> ]; [ | destruct (Pdf.is_encrypted r) ]; reflexivity).
  rewrite Hp, (text_content_none _ Hl). reflexivity.
Qed.

Lemma no_readable_page_message_witness :
  Pdf.extract_text
    (inr {| Pdf.is_encrypted := false; Pdf.decrypt := None;
            Pdf.pages := inr [Pdf.PageText ""; Pdf.PageError "no fonts"] |})
  = Pdf.PDFParseError "Failed to parse PDF: No text could be extracted from PDF".
Proof.
  exact (no_readable_page_message
           {| Pdf.is_encrypted := false; Pdf.decrypt := None;
              Pdf.pages := inr [Pdf.PageText ""; Pdf.PageError "no fonts"] |}
           [Pdf.PageText ""; Pdf.PageError "no fonts"]
           (or_introl eq_refl) eq_refl eq_refl).
Defined.

(** ** The search adapter: bounds and failures *)

Lemma video_of_link (video_data : json) (v : YouTubeVideo) :
  Serper.video_of video_data = Ok v ->
  link v = "" \/ contains "youtube.com" (link v) = true
  \/ contains "youtu.be" (link v) = true.
Proof.
  destruct video_data as [ | | | | | d ]; try discriminate.
  unfold Serper.video_of, YouTubeVideo_init.
  destruct (str_field _) as [ vt | ]; [ | discriminate ].
  destruct (link_field (get_default d "link" (JStr "#"))) as [ vl | ] eqn:L;
    [ | discriminate ].
  destruct (str_field _) as [ vc | ]; [ | discriminate ].
  destruct (str_field _) as [ vd | ]; [ | discriminate ].
  destruct (opt_str_field _) as [ vth | ]; [ | discriminate ].
  intros E; injection E as <-. cbn [link].
  unfold link_field in L.
  destruct (str_field (get_default d "link" (JStr "#"))) as [ s | ]; [ | discriminate ].
  unfold validate_youtube_link in L. cbn [existsb] in L.
  destruct s as [ | c s ]; cbn [nonempty andb] in L.
  - injection L as <-. left; reflexivity.
  - destruct (contains "youtube.com" (String c s)) eqn:A;
      [ injection L as <-; auto | ].
    destruct (contains "youtu.be" (String c s)) eqn:B;
      [ injection L as <-; auto | discriminate ].
Qed.

Lemma collect_links (l : list json) :
  Forall (fun v => link v = "" \/ contains "youtube.com" (link v) = true
                   \/ contains "youtu.be" (link v) = true)
         (Serper.collect l).
Proof.
  induction l as [ | e l IH ]; simpl; [ constructor | ].
  destruct (Serper.video_of e) as [ v | x ] eqn:E; [ | exact IH ].
  constructor; [ eapply video_of_link; eassumption | exact IH ].
Qed.

Lemma collect_length (l : list json) :
  (List.length (Serper.collect l) <= List.length l)%nat.
Proof.
  induction l as [ | e l IH ]; simpl; [ lia | ].
  destruct (Serper.video_of e); simpl; lia.
Qed.

Lemma slice_to_length {A : Type} (n : Z) (l : list A) :
  0 <= n -> (List.length (slice_to n l) <= Z.to_nat n)%nat.
Proof.
  intros H. unfold slice_to.
  destruct (Z.leb_spec 0 n); [ apply firstn_le_length | lia ].
Qed.

(** How a successful search came about. *)
Lemma search_ok_inv
    (fault_text : fault -> string) (serper_num_results : Z)
    (query : string) (num_results : option Z) (reply : Serper.http_reply)
    (videos : list YouTubeVideo) :
  Serper.search_youtube_videos fault_text serper_num_results query num_results reply
  = Ok videos ->
  videos = []
  \/ exists entries : list json,
       videos = Serper.collect
                  (slice_to (effective_num num_results serper_num_results) entries).
Proof.
  unfold Serper.search_youtube_videos.
  destruct (negb (nonempty query) || negb (nonempty (strip query)));
    [ discriminate | ].
  fold (effective_num num_results serper_num_results).
  unfold Serper.request.
  destruct reply as [ | m | m | status body text ]; try discriminate.
  destruct (negb (status =? 200)); [ discriminate | ].
  destruct body as [ results | ]; [ | discriminate ].
  destruct (Serper.has_videos results) as [ present | x ]; cbn [bind];
    [ | discriminate ].
  destruct (negb present); [ intros E; injection E as <-; auto | ].
  unfold Serper.videos_slice.
  destruct results as [ | | | | | d ]; cbn [bind]; try discriminate.
  destruct (get d "videos") as [ | | | s | l | ]; cbn [bind]; try discriminate;
    intros E; injection E as <-; right; eauto.
Qed.

(** X12.  A successful search returns at most [num_results] videos (the
    configured default when the caller gives none or 0), as long as that
    number is not negative, and every video it returns has a link that is
    empty or holds "youtube.com" or "youtu.be". *)
Theorem search_results_bounded
    (fault_text : fault -> string) (serper_num_results : Z)
    (query : string) (num_results : option Z) (reply : Serper.http_reply)
    (videos : list YouTubeVideo) :
  Serper.search_youtube_videos fault_text serper_num_results query num_results reply
  = Ok videos ->
  (0 <= effective_num num_results serper_num_results ->
   Z.of_nat (List.length videos) <= effective_num num_results serper_num_results)
  /\ Forall (fun v => link v = "" \/ contains "youtube.com" (link v) = true
                      \/ contains "youtu.be" (link v) = true) videos.
Proof.
  intros H. apply search_ok_inv in H.
  destruct H as [ -> | [entries ->] ].
  - split; [ simpl; lia | constructor ].
  - split; [ | apply collect_links ].
    intros Hn.
    pose proof (collect_length
                  (slice_to (effective_num num_results serper_num_results) entries)).
    pose proof (slice_to_length _ entries Hn). lia.
Qed.

Lemma search_results_bounded_witness :
  Z.of_nat (List.length
              [ {| title := "Second"; link := "https://youtu.be/b";
                   channel := "N/A"; duration := "N/A"; thumbnail := None |} ])
  <= effective_num (Some 2) 5.
Proof.
  refine (proj1 (search_results_bounded cpython_text 5 "go tutorial" (Some 2)
                   (Serper.Response 200
                      (Some (JDict [("videos",
                               JList [JDict [("title", JStr "First")];
                                      JDict [("title", JStr "Second");
                                             ("link", JStr "https://youtu.be/b")];
                                      JDict [("title", JStr "Third");
                                             ("link", JStr "https://youtu.be/c")]])]))
                      "")
                   _ eq_refl) _).
  vm_compute. discriminate.
Defined.

(** X13.  A blank query is refused with [ValueError] before any request
    is looked at; for any other query, every failure of the search, whatever
    the reply (timeout, network error, status other than 200, a body that
    does not decode or has the wrong shape), is a [SerperAPIError]. *)
Theorem search_failures_categorised
    (fault_text : fault -> string) (serper_num_results : Z)
    (query : string) (num_results : option Z) (reply : Serper.http_reply) :
  (all_space query = true ->
   Serper.search_youtube_videos fault_text serper_num_results query num_results reply
   = Raise (ValueError "Search query cannot be empty"))
  /\ (all_space query = false ->
      forall e,
        Serper.search_youtube_videos fault_text serper_num_results query
          num_results reply = Raise e ->
        exists msg, e = SerperAPIError msg).
Proof.
  unfold Serper.search_youtube_videos. rewrite blank_test.
  split; intros ->; [ reflexivity | ].
  intros e. unfold Serper.request.
  destruct reply as [ | m | m | status body text ];
    try (intros E; injection E as <-; eauto).
  destruct (negb (status =? 200)); [ intros E; injection E as <-; eauto | ].
  destruct body as [ results | ]; [ | intros E; injection E as <-; eauto ].
  match goal with
  | |- match ?f with Ok _ => _ | Raise _ => _ end = _ -> _ => destruct f
  end; [ discriminate | intros E; injection E as <-; eauto ].
Qed.

(** ** The search the page issues *)

Lemma missing_defaulted
    (fault_text : fault -> string) (d : dict) (a : CVAnalysis) :
  Groq.normalize fault_text d = Ok a ->
  Groq.normalize_skills (Groq.missing_of d) = [] ->
  missing_skills a = ["Not specified"].
Proof.
  unfold Groq.normalize.
  destruct (Groq.convert d) as [ a' | x ] eqn:Hc; [ | discriminate ].
  intros H; injection H as ->. intros Hm.
  destruct (convert_trace d)
    as [ [f Hf] | [ [He _] | (o & s & e & dd & g & _ & _ & _ & _ & _ & _ & _ & _ & Hcv) ] ];
    try congruence.
  rewrite Hcv in Hc. apply CVAnalysis_init_ok in Hc.
  destruct Hc as (_ & _ & _ & _ & _ & (ms & Hms & Ems) & _).
  cbn [converted_data arg_missing_skills] in Hms. rewrite Hm in Hms.
  destruct ms as [ | t [ | t' ms ] ]; try discriminate.
  injection Hms as <-. exact Ems.
Qed.

(** X14.  The sentinel the normalizer puts in place of an empty list of
    missing skills is never offered for a search: for every analysis
    returned from a payload whose missing skills coerce to nothing, the
    page finds no real missing skill. *)
Theorem fallback_sentinel_not_offered
    (fault_text : fault -> string) (d : dict) (a : CVAnalysis) :
  Groq.normalize fault_text d = Ok a ->
  Groq.normalize_skills (Groq.missing_of d) = [] ->
  App.real_missing_skills a = [].
Proof.
  intros Hn Hm. unfold App.real_missing_skills.
  rewrite (missing_defaulted fault_text d a Hn Hm). reflexivity.
Qed.

Lemma fallback_sentinel_not_offered_witness :
  App.real_missing_skills
    {| overall_score := 68; skills_match := 0; experience_match := 0;
       education_match := 0; strengths := ["Python"];
       missing_skills := ["Not specified"];
       gaps_analysis := gaps_fallback;
       youtube_search_query := query_fallback |}
  = [].
Proof.
  exact (fallback_sentinel_not_offered cpython_text
           [("overall_score", JInt 68); ("matching_skills", JList [JStr "Python"])]
           _ eq_refl eq_refl).
Defined.

(** X15.  The query the page builds from a selected skill is never blank,
    so the search never refuses it with [ValueError]: whatever the skill,
    the call goes on to the request, and any failure is a
    [SerperAPIError]. *)
Theorem skill_query_never_refused
    (fault_text : fault -> string) (serper_num_results : Z)
    (selected_skill : string) (num_results : option Z)
    (reply : Serper.http_reply) :
  Serper.search_youtube_videos fault_text serper_num_results
    (App.search_query selected_skill) num_results reply
  = Serper.request fault_text (effective_num num_results serper_num_results) reply
  /\ (forall e,
        Serper.search_youtube_videos fault_text serper_num_results
          (App.search_query selected_skill) num_results reply = Raise e ->
        exists msg, e = SerperAPIError msg).
Proof.
  assert (B : all_space (App.search_query selected_skill) = false).
  { unfold App.search_query. rewrite all_space_append. apply andb_false_r. }
  assert (E : Serper.search_youtube_videos fault_text serper_num_results
                (App.search_query selected_skill) num_results reply
              = Serper.request fault_text
                  (effective_num num_results serper_num_results) reply).
  { unfold Serper.search_youtube_videos. rewrite blank_test, B. reflexivity. }
  split; [ exact E | ].
  intros e. rewrite E. unfold Serper.request.
  destruct reply as [ | m | m | status body text ];
    try (intros H; injection H as <-; eauto).
  destruct (negb (status =? 200)); [ intros H; injection H as <-; eauto | ].
  destruct body as [ results | ]; [ | intros H; injection H as <-; eauto ].
  match goal with
  | |- match ?f with Ok _ => _ | Raise _ => _ end = _ -> _ => destruct f
  end; [ discriminate | intros H; injection H as <-; eauto ].
Qed.

(** ** The normalizer on a well-formed payload *)

Lemma coerce_strings (l : list string) :
  map Groq.coerce_item (map JStr l) = map JStr l.
Proof. induction l as [ | s l IH ]; simpl; [ | rewrite IH ]; reflexivity. Qed.

Lemma str_list_field_strings (l : list string) :
  str_list_field (map JStr l) = Some l.
Proof. induction l as [ | s l IH ]; simpl; [ | rewrite IH ]; reflexivity. Qed.

Lemma score_field_in_range (v : Z) : 0 <= v <= 100 -> score_field v = Some v.
Proof.
  intros H. unfold score_field, validate_score, in_bounds.
  replace ((0 <=? v) && (v <=? 100)) with true; [ reflexivity | ].
  symmetry. apply andb_true_iff. split; apply Z.leb_le; lia.
Qed.

Lemma all_zero_ints (o s e d : Z) :
  exists b, Groq.all_zero (JInt o) (JInt s) (JInt e) (JInt d) = Ok b.
Proof.
  unfold Groq.all_zero. cbn [int_of bind].
  destruct (negb (o =? 0)); [ eauto | ].
  destruct (negb (s =? 0)); [ eauto | ].
  destruct (negb (e =? 0)); eauto.
Qed.

(** X16.  Round trip: when the four resolved scores are integers between
    0 and 100, the two resolved skill lists are non-empty lists of strings,
    the resolved summary has at least 10 characters once trimmed and the
    resolved query at least 3, the normalizer returns exactly these
    values, the summary trimmed.  Scores of 0 are returned as they are:
    the emptiness guard does not fire. *)
Theorem well_formed_payload_round_trip
    (fault_text : fault -> string) (d : dict)
    (o s e ed : Z) (st ms : list string) (sm q : string) :
  Groq.overall_of d = JInt o -> Groq.skills_of d = JInt s ->
  Groq.experience_of d = JInt e -> Groq.education_of d = JInt ed ->
  0 <= o <= 100 -> 0 <= s <= 100 -> 0 <= e <= 100 -> 0 <= ed <= 100 ->
  Groq.strengths_of d = JList (map JStr st) -> st <> [] ->
  Groq.missing_of d = JList (map JStr ms) -> ms <> [] ->
  Groq.summary_of d = JStr sm -> (10 <= String.length (strip sm))%nat ->
  Groq.query_of d = JStr q -> (3 <= String.length q)%nat ->
  Groq.normalize fault_text d
  = Ok {| overall_score := o; skills_match := s; experience_match := e;
          education_match := ed; strengths := st; missing_skills := ms;
          gaps_analysis := strip sm; youtube_search_query := q |}.
Proof.
  intros Ho Hs He Hd Bo Bs Be Bd Hst Nst Hms Nms Hsm Lsm Hq Lq.
  assert (Tsm : nonempty (strip sm) = true)
    by (destruct (strip sm); [ simpl in Lsm; lia | reflexivity ]).
  assert (Nsm : nonempty sm = true).
  { destruct sm; [ discriminate | reflexivity ]. }
  assert (Nq : nonempty q = true)
    by (destruct q; [ simpl in Lq; lia | reflexivity ]).
  unfold Groq.normalize, Groq.convert.
  rewrite Ho, Hs, He, Hd, Hst, Hms, Hsm, Hq.
  cbn [len bind Groq.normalize_skills]. rewrite !coerce_strings.
  destruct (all_zero_ints o s e ed) as [b ->]. cbn [bind].
  unfold Groq.is_blank, Groq.gaps_of. cbn [truthy strip_of bind negb].
  rewrite Nsm, Nq. cbn [negb bind]. rewrite Tsm. cbn [negb].
  rewrite andb_false_r. cbn [andb int_of bind].
  unfold CVAnalysis_init.
  cbn [arg_overall_score arg_skills_match arg_experience_match
       arg_education_match arg_strengths arg_missing_skills
       arg_gaps_analysis arg_youtube_search_query].
  rewrite !score_field_in_range by assumption.
  replace (match map JStr st with [] => [JStr "Not specified"] | _ :: _ => map JStr st end)
    with (map JStr st) by (destruct st; [ contradiction | reflexivity ]).
  replace (match map JStr ms with [] => [JStr "Not specified"] | _ :: _ => map JStr ms end)
    with (map JStr ms) by (destruct ms; [ contradiction | reflexivity ]).
  rewrite !str_list_field_strings. cbn [option_map str_field].
  f_equal. f_equal.
  - destruct st; [ contradiction | reflexivity ].
  - destruct ms; [ contradiction | reflexivity ].
  - unfold validate_gaps_analysis. rewrite Tsm.
    destruct (Nat.ltb_spec (String.length (strip sm)) 10); [ lia | reflexivity ].
  - unfold validate_youtube_query. rewrite Nq.
    destruct (Nat.ltb_spec (String.length q) 3); [ lia | reflexivity ].
Qed.

Lemma well_formed_payload_round_trip_witness :
  Groq.normalize cpython_text
    [("overall_score", JInt 68); ("skills_match", JInt 72);
     ("experience_match", JInt 65); ("education_match", JInt 80);
     ("matching_skills", JList [JStr "Python"]);
     ("missing_skills", JList [JStr "Kubernetes"]);
     ("youtube_search_query", JStr "Kubernetes tutorial, latest on youtube");
     ("skill_gap_analysis_summary", JStr " Strong Python, no orchestration yet. ")]
  = Ok {| overall_score := 68; skills_match := 72; experience_match := 65;
          education_match := 80; strengths := ["Python"];
          missing_skills := ["Kubernetes"];
          gaps_analysis := "Strong Python, no orchestration yet.";
          youtube_search_query := "Kubernetes tutorial, latest on youtube" |}.
Proof.
  refine (well_formed_payload_round_trip cpython_text
            [("overall_score", JInt 68); ("skills_match", JInt 72);
             ("experience_match", JInt 65); ("education_match", JInt 80);
             ("matching_skills", JList [JStr "Python"]);
             ("missing_skills", JList [JStr "Kubernetes"]);
             ("youtube_search_query", JStr "Kubernetes tutorial, latest on youtube");
             ("skill_gap_analysis_summary", JStr " Strong Python, no orchestration yet. ")]
            68 72 65 80
            ["Python"] ["Kubernetes"] " Strong Python, no orchestration yet. "
            "Kubernetes tutorial, latest on youtube"
            eq_refl eq_refl eq_refl eq_refl _ _ _ _
            eq_refl _ eq_refl _ eq_refl _ eq_refl _);
    try lia; try discriminate; vm_compute; lia.
Defined.

(** ** [analyze_cv] from end to end *)

(** X17.  [analyze_cv] raises nothing but [GroqAPIError], whatever the
    completion call does; and it returns an analysis only when the call
    gave a text, the recovery decoded it to an object, and the conversion
    of that object succeeded, in which case the analysis is the
    conversion's. *)
Theorem analyze_cv_outcomes
    (json_loads : string -> decoded) (fault_text : fault -> string)
    (model : string) (completion : result (option string)) :
  ((exists a, Groq.analyze_cv json_loads fault_text model completion = Ok a)
   \/ (exists msg, Groq.analyze_cv json_loads fault_text model completion
                   = Raise (GroqAPIError msg)))
  /\ (forall a,
        Groq.analyze_cv json_loads fault_text model completion = Ok a ->
        exists text d,
          completion = Ok (Some text)
          /\ Groq.recover_json json_loads model text = Ok (JDict d)
          /\ Groq.convert d = Ok a).
Proof.
  unfold Groq.analyze_cv. split.
  - destruct (bind completion _) as [ a | e ];
      [ left; exists a; reflexivity
      | right; destruct e; cbn [Groq.handle]; eauto ].
  - intros a H.
    destruct completion as [ [ text | ] | e ]; cbn [bind] in H;
      [ | discriminate | destruct e; discriminate ].
    unfold Groq.analyze_reply in H. cbn [bind] in H.
    destruct (Groq.recover_json json_loads model text) as [ v | e ] eqn:R;
      cbn [bind] in H; [ | destruct e; discriminate ].
    destruct v as [ | | | | | d ]; try discriminate.
    cbn [Groq.keys_of bind] in H. unfold Groq.normalize in H.
    destruct (Groq.convert d) as [ a' | e ] eqn:C; [ | discriminate ].
    cbn [Groq.handle] in H. injection H as <-. exists text, d. auto.
Qed.

Lemma from_open_none (s : string) :
  lacks "{" s = true -> Groq.from_open s = None.
Proof.
  induction s as [ | c s IH ]; simpl; [ reflexivity | ].
  intros H. apply andb_true_iff in H. destruct H as [Hc H].
  apply negb_true_iff in Hc. rewrite Hc. exact (IH H).
Qed.

(** X18.  A reply on which [json.loads] raises [json.JSONDecodeError] once
    its fences are stripped, and which holds no opening brace, makes
    [analyze_cv] raise "Model did not return JSON format. Current model:
    <model>"; the outer handler lets this error through unchanged. *)
Theorem reply_without_json_refused
    (json_loads : string -> decoded) (fault_text : fault -> string)
    (model text : string) :
  json_loads (Groq.strip_fences text) = JSONDecodeError ->
  lacks "{" text = true ->
  Groq.analyze_cv json_loads fault_text model (Ok (Some text))
  = Raise (GroqAPIError
             ("Model did not return JSON format. Current model: " ++ model)).
Proof.
  intros Hl Hb. unfold Groq.analyze_cv, Groq.analyze_reply. cbn [bind].
  unfold Groq.recover_json, Groq.search_braces.
  rewrite Hl, (from_open_none _ Hb). reflexivity.
Qed.

Lemma reply_without_json_refused_witness :
  Groq.analyze_cv (loads_of []) cpython_text "llama-3.3-70b-versatile"
    (Ok (Some "Sure, here is my analysis of your CV..."))
  = Raise (GroqAPIError
             "Model did not return JSON format. Current model: llama-3.3-70b-versatile").
Proof.
  exact (reply_without_json_refused (loads_of []) cpython_text
           "llama-3.3-70b-versatile" "Sure, here is my analysis of your CV..."
           eq_refl eq_refl).
Defined.

(** X21.  When [json.loads] fails on the reply, once its fences are
    stripped, with an exception that is not a [json.JSONDecodeError] (the
    [ValueError] of a number of more digits than the interpreter converts,
    a [RecursionError]), no extraction is attempted, whether the reply
    holds braces or not: the exception reaches the outer handler, and
    [analyze_cv] raises the classification of its message. *)
Theorem loads_failure_classified
    (json_loads : string -> decoded) (fault_text : fault -> string)
    (model text msg : string) :
  json_loads (Groq.strip_fences text) = LoadsError msg ->
  Groq.recover_json json_loads model text = Raise (Fault (Foreign msg))
  /\ Groq.analyze_cv json_loads fault_text model (Ok (Some text))
     = Raise (GroqAPIError (Groq.classify model msg)).
Proof.
  intros Hl.
  assert (R : Groq.recover_json json_loads model text = Raise (Fault (Foreign msg)))
    by (unfold Groq.recover_json; rewrite Hl; reflexivity).
  split; [ exact R | ].
  unfold Groq.analyze_cv, Groq.analyze_reply. cbn [bind].
  rewrite R. reflexivity.
Qed.

Lemma loads_failure_classified_witness :
  let text := "{" ++ quoted "overall_score" ++ ": " ++ ones 4301 ++ "}" in
  let msg := "Exceeds the limit (4300 digits) for integer string conversion: value has 4301 digits; use sys.set_int_max_str_digits() to increase the limit" in
  Groq.recover_json (loads_failing text msg) "llama-3.3-70b-versatile" text
  = Raise (Fault (Foreign msg))
  /\ Groq.analyze_cv (loads_failing text msg) cpython_text
       "llama-3.3-70b-versatile" (Ok (Some text))
     = Raise (GroqAPIError ("Analysis failed: " ++ msg)).
Proof.
  intros text msg.
  apply (loads_failure_classified (loads_failing text msg) cpython_text
           "llama-3.3-70b-versatile" text msg).
  vm_compute. reflexivity.
Defined.

(** ** [sanitize_text] *)

Section Sanitize.

Lemma all_chars_append (p : ascii -> bool) (a b : string) :
  all_chars p (a ++ b) = all_chars p a && all_chars p b.
Proof.
  induction a as [ | c a IH ]; simpl; [ reflexivity | ].
  rewrite IH. apply andb_assoc.
Qed.

Lemma all_chars_weaken (p q : ascii -> bool) (s : string) :
  (forall c, p c = true -> q c = true) ->
  all_chars p s = true -> all_chars q s = true.
Proof.
  intros H. induction s as [ | c s IH ]; simpl; [ reflexivity | ].
  intros E. apply andb_true_iff in E. destruct E as [Ec E].
  rewrite (H c Ec), (IH E). reflexivity.
Qed.

Lemma all_chars_lstrip (p : ascii -> bool) (s : string) :
  all_chars p s = true -> all_chars p (lstrip s) = true.
Proof.
  induction s as [ | c s IH ]; simpl; [ reflexivity | ].
  intros E. destruct (isspace c); [ | exact E ].
  apply andb_true_iff in E. apply IH, E.
Qed.

Lemma all_chars_rstrip (p : ascii -> bool) (s : string) :
  all_chars p s = true -> all_chars p (rstrip s) = true.
Proof.
  induction s as [ | c s IH ]; simpl; [ reflexivity | ].
  intros E. apply andb_true_iff in E. destruct E as [Ec E].
  specialize (IH E).
  destruct (rstrip s); [ destruct (isspace c) | ]; simpl in *;
    rewrite ?Ec, ?IH; reflexivity.
Qed.

(** A pattern whose first character is excluded does not occur. *)
Lemma all_chars_excludes (p : ascii -> bool) (c0 : ascii) (pat s : string) :
  p c0 = false -> all_chars p s = true -> contains (String c0 pat) s = false.
Proof.
  intros Hp Hs. destruct (contains (String c0 pat) s) eqn:C; [ | reflexivity ].
  apply contains_split in C. destruct C as (u & v & ->).
  rewrite all_chars_append in Hs. apply andb_true_iff in Hs.
  destruct Hs as [_ Hs]. simpl in Hs. rewrite Hp in Hs. discriminate.
Qed.

Lemma words_go_clean (cur s : string) :
  all_chars (fun c => negb (isspace c)) cur = true ->
  Forall (fun w => nonempty w = true
                   /\ all_chars (fun c => negb (isspace c)) w = true)
         (words_go cur s).
Proof.
  revert cur. induction s as [ | c s IH ]; intros cur Hc; cbn [words_go].
  - destruct (nonempty cur) eqn:N; [ constructor; auto | constructor ].
  - destruct (isspace c) eqn:Sc.
    + destruct (nonempty cur) eqn:N; [ constructor; auto | ]; apply IH; reflexivity.
    + apply IH. rewrite all_chars_append, Hc. simpl. rewrite Sc. reflexivity.
Qed.

Lemma words_go_keep (p : ascii -> bool) (cur s : string) :
  all_chars p cur = true -> all_chars p s = true ->
  Forall (fun w => all_chars p w = true) (words_go cur s).
Proof.
  revert cur. induction s as [ | c s IH ]; intros cur Hc Hs; cbn [words_go].
  - destruct (nonempty cur); constructor; auto.
  - cbn [all_chars] in Hs. apply andb_true_iff in Hs. destruct Hs as [Pc Hs].
    destruct (isspace c).
    + destruct (nonempty cur); [ constructor; auto | ]; apply IH; auto.
    + apply IH; [ | exact Hs ].
      rewrite all_chars_append, Hc. simpl. rewrite Pc. reflexivity.
Qed.

Lemma join_keep (p : ascii -> bool) (sep : string) (l : list string) :
  all_chars p sep = true ->
  Forall (fun w => all_chars p w = true) l ->
  all_chars p (join sep l) = true.
Proof.
  intros Hs. induction 1 as [ | w l Hw Hl IH ]; [ reflexivity | ].
  cbn [join]. destruct l as [ | w' l ]; [ exact Hw | ].
  rewrite !all_chars_append, Hw, Hs, IH. reflexivity.
Qed.

Lemma join_words_chars (l : list string) :
  Forall (fun w => nonempty w = true
                   /\ all_chars (fun c => negb (isspace c)) w = true) l ->
  all_chars (fun c => negb (isspace c) || (c =? " ")%char) (join " " l) = true.
Proof.
  induction 1 as [ | w l [_ Hw] Hl IH ]; [ reflexivity | ].
  assert (W : all_chars (fun c => negb (isspace c) || (c =? " ")%char) w = true).
  { revert Hw. apply all_chars_weaken. intros c ->. reflexivity. }
  cbn [join]. destruct l as [ | w' l ]; [ exact W | ].
  rewrite !all_chars_append, W, IH. reflexivity.
Qed.

Lemma replace_nul_chars (p : ascii -> bool) (s : string) :
  all_chars p s = true ->
  all_chars (fun c => negb (c =? ascii_of_nat 0)%char && p c) (replace nul "" s)
  = true.
Proof.
  unfold replace, nul. induction s as [ | c s IH ]; [ reflexivity | ].
  cbn [all_chars]. intros E. apply andb_true_iff in E. destruct E as [Ec E].
  cbn [replace_go String.prefix].
  destruct (ascii_dec (ascii_of_nat 0) c) as [ <- | Hn ].
  - replace (String.prefix "" s) with true by (destruct s; reflexivity).
    cbn [String.length Nat.sub append]. exact (IH E).
  - cbn [all_chars]. rewrite (IH E), Ec, andb_true_r.
    destruct (Ascii.eqb_spec c (ascii_of_nat 0)) as [ -> | _ ];
      [ contradiction | reflexivity ].
Qed.

Lemma replace_nul_absent (s : string) :
  lacks (ascii_of_nat 0) s = true -> replace nul "" s = s.
Proof.
  unfold replace, nul. induction s as [ | c s IH ]; [ reflexivity | ].
  cbn [lacks]. intros E. apply andb_true_iff in E. destruct E as [Ec E].
  apply negb_true_iff, Ascii.eqb_neq in Ec.
  cbn [replace_go String.prefix].
  destruct (ascii_dec (ascii_of_nat 0) c) as [ <- | _ ]; [ contradiction | ].
  rewrite (IH E). reflexivity.
Qed.

Lemma limit_newlines_idle (rounds : nat) (text : string) :
  contains Validators.three_newlines text = false ->
  Validators.limit_newlines rounds text = text.
Proof. intros H. destruct rounds; simpl; [ | rewrite H ]; reflexivity. Qed.

Lemma lstrip_clean (w r : string) :
  nonempty w = true -> all_chars (fun c => negb (isspace c)) w = true ->
  lstrip (w ++ r) = w ++ r.
Proof.
  destruct w as [ | c w ]; [ discriminate | ]. intros _ H.
  simpl in *. apply andb_true_iff in H. destruct H as [Hc _].
  apply negb_true_iff in Hc. rewrite Hc. reflexivity.
Qed.

Lemma rstrip_clean (w : string) :
  all_chars (fun c => negb (isspace c)) w = true -> rstrip w = w.
Proof.
  induction w as [ | c w IH ]; [ reflexivity | ].
  cbn [all_chars]. intros H. apply andb_true_iff in H. destruct H as [Hc H].
  apply negb_true_iff in Hc. simpl. rewrite (IH H).
  destruct w; [ rewrite Hc | ]; reflexivity.
Qed.

Lemma lacks_all_chars (c : ascii) (s : string) :
  lacks c s = all_chars (fun x => negb (x =? c)%char) s.
Proof. induction s as [ | x s IH ]; simpl; [ | rewrite IH ]; reflexivity. Qed.

(** The words joined by single spaces are already trimmed. *)
Lemma strip_join_words (l : list string) :
  Forall (fun w => nonempty w = true
                   /\ all_chars (fun c => negb (isspace c)) w = true) l ->
  strip (join " " l) = join " " l.
Proof.
  intros H. unfold strip.
  assert (L : lstrip (join " " l) = join " " l).
  { destruct H as [ | w l [Nw Hw] Hl ]; [ reflexivity | ].
    cbn [join]. destruct l.
    - rewrite <- (append_nil_r w) at 1 2. apply lstrip_clean; assumption.
    - apply lstrip_clean; assumption. }
  rewrite L.
  induction H as [ | w l [Nw Hw] Hl IH ]; [ reflexivity | ].
  cbn [join]. destruct l as [ | w' l ]; [ apply rstrip_clean; exact Hw | ].
  rewrite <- append_assoc. apply rstrip_kept.
  - apply IH.
    inversion Hl as [ | ? ? [Nw' Hw'] Hl' ]; subst.
    cbn [join]. destruct l.
    + rewrite <- (append_nil_r w') at 1 2. apply lstrip_clean; assumption.
    + apply lstrip_clean; assumption.
  - inversion Hl as [ | ? ? [Nw' Hw'] Hl' ]; subst.
    cbn [join]. destruct w'; [ discriminate | ]. destruct l; discriminate.
Qed.

End Sanitize.

(** X19.  [sanitize_text] returns a trimmed text without NUL and without
    any blank other than the space.  Its loop over runs of three newlines
    never does a round, since no newline is left after the words are
    joined.  On a text without NUL it returns the words of the text
    separated by single spaces. *)
Theorem sanitize_text_clean (text : string) :
  all_chars sanitized_char (Validators.sanitize_text text) = true
  /\ strip (Validators.sanitize_text text) = Validators.sanitize_text text
  /\ contains Validators.three_newlines
       (replace nul "" (join " " (words text))) = false
  /\ (lacks (ascii_of_nat 0) text = true ->
      Validators.sanitize_text text = join " " (words text)).
Proof.
  pose proof (words_go_clean "" text eq_refl) as W. fold (words text) in W.
  pose proof (join_words_chars _ W) as J.
  pose proof (replace_nul_chars _ _ J) as R.
  assert (N : contains Validators.three_newlines
                (replace nul "" (join " " (words text))) = false).
  { eapply all_chars_excludes; [ | exact R ]. reflexivity. }
  unfold Validators.sanitize_text. rewrite (limit_newlines_idle _ _ N).
  split; [ | split; [ apply strip_idempotent | split; [ exact N | ] ] ].
  - unfold strip. apply all_chars_rstrip, all_chars_lstrip. exact R.
  - intros L.
    assert (K : lacks (ascii_of_nat 0) (join " " (words text)) = true).
    { rewrite lacks_all_chars in *.
      apply join_keep; [ reflexivity | ].
      apply words_go_keep; [ reflexivity | exact L ]. }
    rewrite (replace_nul_absent _ K). apply strip_join_words. exact W.
Qed.

(** ** The validators and the request model together *)

(** X20.  A text that [validate_text_length] accepts with a lower bound
    of at least 50, as the page requires of both inputs, is always
    accepted by the fields of [AnalysisRequest], which store it
    trimmed. *)
Theorem validated_text_fits_request (text : string) (min_length max_length : Z) :
  50 <= min_length ->
  fst (Validators.validate_text_length text min_length max_length) = true ->
  Requests.text_field text = Some (strip text).
Proof.
  intros Hmin. unfold Validators.validate_text_length. rewrite blank_test.
  destruct (all_space text); [ discriminate | ].
  destruct (Z.ltb_spec (Z.of_nat (String.length (strip text))) min_length);
    [ discriminate | ].
  intros _. pose proof (length_strip text).
  unfold Requests.text_field, Requests.validate_text_content.
  destruct (Nat.ltb_spec (String.length text) 50); [ lia | ].
  destruct (Nat.ltb_spec (String.length (strip text)) 50); [ lia | reflexivity ].
Qed.

Lemma validated_text_fits_request_witness :
  let text := " Looking for a backend engineer with strong Python skills. " in
  Requests.text_field text = Some (strip text).
Proof.
  exact (validated_text_fits_request
           " Looking for a backend engineer with strong Python skills. "
           50 50000 ltac:(lia) eq_refl).
Defined.
